(** * Bring-up sequencer and event sink of the OTA-over-MQTT example

    A shallow embedding of [source/ota_task.c]: the task [ota_task], the
    Wi-Fi join loop [connect_to_wifi_ap] and the agent callback
    [ota_callback].  The C code is a straight sequence of calls into
    external libraries (Wi-Fi connection manager, IoT SDK, MQTT, OTA agent,
    FreeRTOS, stdio); every such call is recorded in a chronological trace
    and its result is drawn from an oracle [env], so that the theorems hold
    for every behaviour of the collaborators. *)

From Stdlib Require Import ZArith List String Ascii Bool Lia.
Import ListNotations.
Local Open Scope Z_scope.

(** ** C values *)

Definition cy_rslt_t := Z.            (* uint32_t result code *)
Definition uint32_t := Z.
Definition cy_ota_cb_reason_t := Z.   (* enum, passed as int *)
Definition cy_ota_agent_state_t := Z. (* enum, passed as int *)

Definition UINT32_MOD : Z := 2 ^ 32.

(** [x++] on a [uint32_t]. *)
Definition uint32_incr (x : Z) : Z := (x + 1) mod UINT32_MOD.

(** The cast [(int) result] of a 32-bit unsigned value. *)
Definition int_of_uint32 (x : Z) : Z :=
  (x + 2 ^ 31) mod UINT32_MOD - 2 ^ 31.

(** Pointers that the file handles: the null pointer, the address of the
    global [ota_context], and addresses handed out by the libraries. *)
Inductive void_ptr : Type :=
| NULL
| Addr_ota_context
| Extern (a : Z).

Definition cy_ota_context_ptr := void_ptr.

(** Function pointers stored in [cy_ota_agent_params_t]. *)
Inductive cb_func_ptr : Type :=
| Fn_ota_callback.

Definition LF : string := String (ascii_of_nat 10) EmptyString.

(** ** Structures *)

Record cy_wcm_config_t := { interface : Z }.

Record cy_wcm_ap_credentials_t := {
  SSID : string;
  password : string;
  security : Z
}.

Record cy_wcm_connect_params_t := { ap_credentials : cy_wcm_ap_credentials_t }.

Record IotNetworkCredentials := {
  pRootCa : string;      rootCaSize : Z;
  pClientCert : string;  clientCertSize : Z;
  pPrivateKey : string;  privateKeySize : Z
}.

Record cy_ota_server_info_t := { pHostName : string; port : Z }.

Record cy_ota_mqtt_params_t := {
  pTopicFilters : list string;
  numTopicFilters : Z;
  pIdentifier : string;
  awsIotMqttMode : Z
}.

Record cy_ota_network_params_t := {
  server : cy_ota_server_info_t;
  transport : Z;
  u_mqtt : cy_ota_mqtt_params_t;
  np_credentials : option IotNetworkCredentials;  (* NULL or &credentials *)
  network_interface : void_ptr
}.

Record cy_ota_agent_params_t := {
  cb_func : cb_func_ptr;
  cb_arg : void_ptr;
  reboot_upon_completion : Z
}.

(** ** Macros of the file *)

(* MAX connection retries to join WI-FI AP *)
Definition MAX_CONNECTION_RETRIES : Z := 10.

(* Wait between connection retries *)
Definition WIFI_CONN_RETRY_DELAY_MS : Z := 500.

(** ** What the included headers supply

    Constants and macros that [ota_task.c] takes from headers outside the
    file ([cy_result.h], [cy_wcm.h], the IoT SDK, FreeRTOS and
    [ota_app_config.h]).  They are parameters of the development. *)
Class Headers := {
  CY_RSLT_SUCCESS : cy_rslt_t;
  IOT_NETWORK_SUCCESS : Z;
  IOT_MQTT_SUCCESS : Z;
  pdMS_TO_TICKS : Z -> Z;
  CY_WCM_INTERFACE_TYPE_STA : Z;
  CY_OTA_TRANSPORT_MQTT : Z;
  IOT_NETWORK_INTERFACE_CY_SECURE_SOCKETS : void_ptr;
  (* ota_app_config.h *)
  WIFI_SSID : string;
  WIFI_PASSWORD : string;
  WIFI_SECURITY : Z;
  ROOT_CA_CERTIFICATE : string;
  CLIENT_CERTIFICATE : string;
  CLIENT_KEY : string;
  MQTT_BROKER_URL : string;
  MQTT_SERVER_PORT : Z;
  my_topics : list string;
  MQTT_TOPIC_FILTER_NUM : Z;
  OTA_MQTT_ID : string;
  AWS_IOT_MQTT_MODE : Z;
  ENABLE_TLS : bool
}.

(** ** Trace of calls into the collaborators *)

Inductive printf_arg : Type :=
| ArgInt (z : Z)          (* %d *)
| ArgLong (z : Z)         (* %ld *)
| ArgStr (s : string)     (* %s *)
| ArgPtr (p : void_ptr).  (* %p *)

Inductive event : Type :=
| Call_cy_wcm_init (config : cy_wcm_config_t)
| Call_cy_wcm_connect_ap (p : cy_wcm_connect_params_t)
| Call_printf (fmt : string) (args : list printf_arg)
| Call_vTaskDelay (ticks : Z)
| Call_IotSdk_Init
| Call_IotNetworkSecureSockets_Init
| Call_IotMqtt_Init
| Call_cy_ota_agent_start (np : cy_ota_network_params_t)
                          (ap : cy_ota_agent_params_t) (ctx_ptr : void_ptr)
| Call_vTaskSuspend (task : void_ptr)
| Call_cy_ota_get_state (ctx : cy_ota_context_ptr).

(** ** The collaborators

    [env] fixes how the external libraries answer.  The k-th call of
    [cy_wcm_connect_ap] (counted from 0) answers [connect_ap_result k]. *)
Record env := {
  wcm_init_result : cy_rslt_t;
  connect_ap_result : nat -> cy_rslt_t;
  IotSdk_Init_result : bool;
  IotNetworkSecureSockets_Init_result : Z;
  IotMqtt_Init_result : Z;
  (* result code and, when the library stores one, the new context *)
  agent_start_result :
    cy_ota_network_params_t -> cy_ota_agent_params_t ->
    cy_rslt_t * option cy_ota_context_ptr;
  get_state_result : cy_ota_context_ptr -> cy_rslt_t;
  (* code-to-text tables of the OTA library *)
  reason_strings : list (Z * string);
  state_strings : list (Z * string);
  error_strings : list (Z * string)
}.

(** State owned by the running agent and read through its accessors. *)
Record agent_snapshot := {
  agent_state : cy_ota_context_ptr -> cy_ota_agent_state_t;
  last_error : cy_rslt_t
}.

(** The mutable world: the trace, the number of join attempts made so far,
    the two global variables the file writes, and the agent's own state. *)
Record world := {
  trace : list event;
  connect_calls : nat;
  ota_context : cy_ota_context_ptr;
  ota_network_params : cy_ota_network_params_t;
  agent : agent_snapshot
}.

(** ** A monad for the task: state plus the ways control can stop *)

Inductive outcome (A : Type) : Type :=
| Ret (a : A)      (* the call returned *)
| Halted           (* CY_ASSERT(0) stopped the device *)
| Suspended        (* vTaskSuspend(NULL): the task no longer runs *)
| Undef            (* undefined behaviour of the C program *)
| OutOfFuel.       (* the loop model ran out of fuel *)

Arguments Ret {A} a.
Arguments Halted {A}.
Arguments Suspended {A}.
Arguments Undef {A}.
Arguments OutOfFuel {A}.

Definition M (A : Type) : Type := world -> outcome A * world.

Definition ret {A} (a : A) : M A := fun w => (Ret a, w).

Definition bind {A B} (c : M A) (k : A -> M B) : M B :=
  fun w =>
    match c w with
    | (Ret a, w') => k a w'
    | (Halted, w') => (Halted, w')
    | (Suspended, w') => (Suspended, w')
    | (Undef, w') => (Undef, w')
    | (OutOfFuel, w') => (OutOfFuel, w')
    end.

Declare Scope task_scope.
Delimit Scope task_scope with task.
Notation "x <- c1 ;; c2" := (bind c1 (fun x => c2))
  (at level 61, c1 at next level, right associativity) : task_scope.
Notation "c1 ;; c2" := (bind c1 (fun _ => c2))
  (at level 61, right associativity) : task_scope.
Local Open Scope task_scope.

Definition stop {A} (o : outcome A) : M A := fun w => (o, w).

Definition emit (e : event) : M unit :=
  fun w => (Ret tt,
            {| trace := trace w ++ [e];
               connect_calls := connect_calls w;
               ota_context := ota_context w;
               ota_network_params := ota_network_params w;
               agent := agent w |}).

Definition get_world : M world := fun w => (Ret w, w).

Definition when (c : bool) (body : M unit) : M unit :=
  if c then body else ret tt.

(** Modelled from the spec: the macro [CY_ASSERT] comes from a header that
    is not part of the sources.  The spec (section 6) says that on a fatal
    condition the process "asserts/aborts" with no shutdown path, so a false
    assertion stops the task for good. *)
Definition CY_ASSERT (cond : bool) : M unit :=
  if cond then ret tt else stop Halted.

(** Modelled from the spec: the text lookups of the OTA library
    ([cy_ota_get_callback_reason_string], [cy_ota_get_state_string],
    [cy_ota_get_error_string]) are not part of the sources.  The spec
    (sections 4.2 and 7) says they map a code to descriptive text through a
    lookup and that an unmapped code degrades to an "unknown" string. *)
Fixpoint lookup_text (table : list (Z * string)) (code : Z) : string :=
  match table with
  | [] => "unknown"%string
  | (c, s) :: rest => if c =? code then s else lookup_text rest code
  end.

Section Task.
Context `{Headers}.
Variable E : env.

(** *** Calls into the collaborators *)

Definition printf (fmt : string) (args : list printf_arg) : M unit :=
  emit (Call_printf fmt args).

Definition vTaskDelay (ticks : Z) : M unit := emit (Call_vTaskDelay ticks).

Definition vTaskSuspend (task : void_ptr) : M unit :=
  emit (Call_vTaskSuspend task) ;; stop Suspended.

Definition cy_wcm_init (config : cy_wcm_config_t) : M cy_rslt_t :=
  emit (Call_cy_wcm_init config) ;; ret (wcm_init_result E).

Definition cy_wcm_connect_ap (p : cy_wcm_connect_params_t) : M cy_rslt_t :=
  fun w => (Ret (connect_ap_result E (connect_calls w)),
            {| trace := trace w ++ [Call_cy_wcm_connect_ap p];
               connect_calls := S (connect_calls w);
               ota_context := ota_context w;
               ota_network_params := ota_network_params w;
               agent := agent w |}).

Definition IotSdk_Init : M bool :=
  emit Call_IotSdk_Init ;; ret (IotSdk_Init_result E).

Definition IotNetworkSecureSockets_Init : M Z :=
  emit Call_IotNetworkSecureSockets_Init ;;
  ret (IotNetworkSecureSockets_Init_result E).

Definition IotMqtt_Init : M Z :=
  emit Call_IotMqtt_Init ;; ret (IotMqtt_Init_result E).

Definition set_ota_context (c : cy_ota_context_ptr) : M unit :=
  fun w => (Ret tt,
            {| trace := trace w;
               connect_calls := connect_calls w;
               ota_context := c;
               ota_network_params := ota_network_params w;
               agent := agent w |}).

(** [cy_ota_agent_start(&ota_network_params, ap, &ota_context)]: the
    library reads the network parameters, answers with a result code and
    may store the new context through the third argument. *)
Definition cy_ota_agent_start (ap : cy_ota_agent_params_t)
           (ctx_ptr : void_ptr) : M cy_rslt_t :=
  w <- get_world ;;
  emit (Call_cy_ota_agent_start (ota_network_params w) ap ctx_ptr) ;;
  match agent_start_result E (ota_network_params w) ap with
  | (r, Some c) => set_ota_context c ;; ret r
  | (r, None) => ret r
  end.

(** Modelled from the spec: [cy_ota_get_state(ctx, &ota_state)] belongs to
    the OTA library, outside the sources.  By the spec's interface
    (section 6, [query_state(handle) -> state_snapshot]) the call always
    stores the agent's current state through its second argument; its
    result code is returned as well, and [ota_callback] drops it. *)
Definition cy_ota_get_state (ctx : cy_ota_context_ptr)
  : M (cy_rslt_t * cy_ota_agent_state_t) :=
  emit (Call_cy_ota_get_state ctx) ;;
  w <- get_world ;;
  ret (get_state_result E ctx, agent_state (agent w) ctx).

Definition cy_ota_last_error : M cy_rslt_t :=
  w <- get_world ;; ret (last_error (agent w)).

Definition cy_ota_get_callback_reason_string (reason : Z) : string :=
  lookup_text (reason_strings E) reason.

Definition cy_ota_get_state_string (state : Z) : string :=
  lookup_text (state_strings E) state.

Definition cy_ota_get_error_string (err : Z) : string :=
  lookup_text (error_strings E) err.

(** *** Global variables *)

(* MQTT Credentials for OTA; sizeof of a string literal counts the NUL *)
Definition credentials : IotNetworkCredentials :=
  {| pRootCa := ROOT_CA_CERTIFICATE;
     rootCaSize := Z.of_nat (String.length ROOT_CA_CERTIFICATE) + 1;
     pClientCert := CLIENT_CERTIFICATE;
     clientCertSize := Z.of_nat (String.length CLIENT_CERTIFICATE) + 1;
     pPrivateKey := CLIENT_KEY;
     privateKeySize := Z.of_nat (String.length CLIENT_KEY) + 1 |}.

(* Network parameters for OTA, as statically initialised *)
Definition ota_network_params_init : cy_ota_network_params_t :=
  {| server := {| pHostName := MQTT_BROKER_URL; port := MQTT_SERVER_PORT |};
     transport := CY_OTA_TRANSPORT_MQTT;
     u_mqtt := {| pTopicFilters := my_topics;
                  numTopicFilters := MQTT_TOPIC_FILTER_NUM;
                  pIdentifier := OTA_MQTT_ID;
                  awsIotMqttMode := AWS_IOT_MQTT_MODE |};
     np_credentials := if ENABLE_TLS then Some credentials else None;
     network_interface := NULL |}.

(* Parameters for OTA agent *)
Definition ota_agent_params : cy_ota_agent_params_t :=
  {| cb_func := Fn_ota_callback;
     cb_arg := Addr_ota_context;
     reboot_upon_completion := 1 |}.

(** [ota_network_params.network_interface = v] *)
Definition set_network_interface (v : void_ptr) : M unit :=
  fun w => (Ret tt,
            {| trace := trace w;
               connect_calls := connect_calls w;
               ota_context := ota_context w;
               ota_network_params :=
                 {| server := server (ota_network_params w);
                    transport := transport (ota_network_params w);
                    u_mqtt := u_mqtt (ota_network_params w);
                    np_credentials := np_credentials (ota_network_params w);
                    network_interface := v |};
               agent := agent w |}).

(** *** connect_to_wifi_ap *)

Definition fmt_connected : string :=
  ("Successfully connected to Wi-Fi network '%s'." ++ LF)%string.

Definition fmt_retrying : string :=
  ("Connection to Wi-Fi network failed with error code %d."
   ++ "Retrying in %d ms..." ++ LF)%string.

Definition fmt_exceeded : string :=
  ("Exceeded maximum Wi-Fi connection attempts" ++ LF)%string.

(** The two macros of the file are kept as variables here, so that the
    loop can be studied for every bound and delay; [connect_to_wifi_ap]
    and [ota_task] below instantiate them with the compiled-in values. *)
Variable max_connection_retries : Z.
Variable wifi_conn_retry_delay_ms : Z.

(* Set the Wi-Fi SSID, password and security type. *)
Definition wifi_conn_param : cy_wcm_connect_params_t :=
  {| ap_credentials := {| SSID := WIFI_SSID;
                          password := WIFI_PASSWORD;
                          security := WIFI_SECURITY |} |}.

(** The [for] loop.  [result] is [None] while the local variable has not
    been assigned; returning it in that state is undefined behaviour. *)
Fixpoint connect_loop (fuel : nat) (conn_retries : Z)
         (result : option cy_rslt_t) : M cy_rslt_t :=
  if conn_retries <? max_connection_retries then
    match fuel with
    | O => stop OutOfFuel
    | S fuel' =>
        r <- cy_wcm_connect_ap wifi_conn_param ;;
        if r =? CY_RSLT_SUCCESS then
          printf fmt_connected [ArgStr (SSID (ap_credentials wifi_conn_param))] ;;
          ret r
        else
          printf fmt_retrying
                 [ArgInt (int_of_uint32 r); ArgInt wifi_conn_retry_delay_ms] ;;
          vTaskDelay (pdMS_TO_TICKS wifi_conn_retry_delay_ms) ;;
          connect_loop fuel' (uint32_incr conn_retries) (Some r)
    end
  else
    printf fmt_exceeded [] ;;
    match result with
    | Some r => ret r
    | None => stop Undef
    end.

Definition connect_to_wifi_ap_with : M cy_rslt_t :=
  (* Initialize Wi-Fi connection manager. *)
  _ <- cy_wcm_init {| interface := CY_WCM_INTERFACE_TYPE_STA |} ;;
  (* Connect to the Wi-Fi AP *)
  connect_loop (Z.to_nat max_connection_retries) 0 None.

(** *** ota_callback *)

Definition fmt_callback : string :=
  ("Application OTA callback ctx:%p reason:%d %s value:%ld state:%d %s %s"
   ++ LF)%string.

(** [*((cy_ota_context_ptr * )cb_arg)] *)
Definition load_context_ptr (cb_arg : void_ptr) : M cy_ota_context_ptr :=
  match cb_arg with
  | Addr_ota_context => w <- get_world ;; ret (ota_context w)
  | _ => stop Undef
  end.

Definition ota_callback (reason : cy_ota_cb_reason_t) (value : uint32_t)
           (cb_arg : void_ptr) : M unit :=
  ctx <- load_context_ptr cb_arg ;;
  rs <- cy_ota_get_state ctx ;;
  let ota_state := snd rs in
  err <- cy_ota_last_error ;;
  printf fmt_callback
         [ArgPtr ctx;
          ArgInt reason;
          ArgStr (cy_ota_get_callback_reason_string reason);
          ArgLong value;
          ArgInt ota_state;
          ArgStr (cy_ota_get_state_string ota_state);
          ArgStr (cy_ota_get_error_string err)].

(** Calling through a stored function pointer. *)
Definition call_cb_func (f : cb_func_ptr) : Z -> Z -> void_ptr -> M unit :=
  match f with
  | Fn_ota_callback => ota_callback
  end.

(** *** ota_task *)

Definition msg_wifi_failed : string :=
  (LF ++ " Failed to connect to Wi-FI AP." ++ LF)%string.
Definition msg_sdk_failed : string :=
  (LF ++ " IotSdk_Init Failed." ++ LF)%string.
Definition msg_sockets_failed : string :=
  (LF ++ " IotNetworkSecureSockets_Init Failed." ++ LF)%string.
Definition msg_mqtt_failed : string :=
  (LF ++ " IotMqtt_Init Failed." ++ LF)%string.
Definition msg_agent_failed : string :=
  (LF ++ " Initializing and starting the OTA agent failed." ++ LF)%string.

Definition ota_task_with : M unit :=
  (* Connect to Wi-Fi AP *)
  r <- connect_to_wifi_ap_with ;;
  when (negb (r =? CY_RSLT_SUCCESS))
       (printf msg_wifi_failed [] ;; CY_ASSERT false) ;;
  (* Initialize the underlying support code that is needed for OTA and MQTT *)
  ok <- IotSdk_Init ;;
  when (negb ok)
       (printf msg_sdk_failed [] ;; CY_ASSERT false) ;;
  (* Call the Network Secured Sockets initialization function. *)
  s <- IotNetworkSecureSockets_Init ;;
  when (negb (s =? IOT_NETWORK_SUCCESS))
       (printf msg_sockets_failed [] ;; CY_ASSERT false) ;;
  (* Initialize the MQTT subsystem *)
  m <- IotMqtt_Init ;;
  when (negb (m =? IOT_MQTT_SUCCESS))
       (printf msg_mqtt_failed [] ;; CY_ASSERT false) ;;
  (* Add the network interface to the OTA network parameters *)
  set_network_interface IOT_NETWORK_INTERFACE_CY_SECURE_SOCKETS ;;
  (* Initialize and start the OTA agent *)
  a <- cy_ota_agent_start ota_agent_params Addr_ota_context ;;
  when (negb (a =? CY_RSLT_SUCCESS))
       (printf msg_agent_failed [] ;; CY_ASSERT false) ;;
  vTaskSuspend NULL.

End Task.

(** The functions of the file, with the compiled-in bound and delay. *)
Definition connect_to_wifi_ap `{Headers} (E : env) : M cy_rslt_t :=
  connect_to_wifi_ap_with E MAX_CONNECTION_RETRIES WIFI_CONN_RETRY_DELAY_MS.

Definition ota_task `{Headers} (E : env) : M unit :=
  ota_task_with E MAX_CONNECTION_RETRIES WIFI_CONN_RETRY_DELAY_MS.

(** ** Observations on worlds and traces *)

(** The world after the events [evs], [n] of which are join attempts. *)
Definition advance (w : world) (evs : list event) (n : nat) : world :=
  {| trace := trace w ++ evs;
     connect_calls := (connect_calls w + n)%nat;
     ota_context := ota_context w;
     ota_network_params := ota_network_params w;
     agent := agent w |}.

Definition is_connect (e : event) : bool :=
  match e with Call_cy_wcm_connect_ap _ => true | _ => false end.

Definition is_printf (e : event) : bool :=
  match e with Call_printf _ _ => true | _ => false end.

Definition is_delay (e : event) : bool :=
  match e with Call_vTaskDelay _ => true | _ => false end.

Definition is_agent_start (e : event) : bool :=
  match e with Call_cy_ota_agent_start _ _ _ => true | _ => false end.

Definition is_get_state (e : event) : bool :=
  match e with Call_cy_ota_get_state _ => true | _ => false end.

(** The calls that begin the four stages after the network join. *)
Definition is_sdk_init (e : event) : bool :=
  match e with Call_IotSdk_Init => true | _ => false end.

Definition is_sockets_init (e : event) : bool :=
  match e with Call_IotNetworkSecureSockets_Init => true | _ => false end.

Definition is_mqtt_init (e : event) : bool :=
  match e with Call_IotMqtt_Init => true | _ => false end.

Definition count (p : event -> bool) (tr : list event) : nat :=
  List.length (filter p tr).

Definition occurs (p : event -> bool) (tr : list event) : bool :=
  existsb p tr.

(** Every join attempt but the first comes after a [vTaskDelay] of at least
    [ticks] that follows the attempt before it.  [ready] tells whether such
    a delay has been seen since the last attempt. *)
Fixpoint separated_from (ticks : Z) (ready : bool) (tr : list event) : bool :=
  match tr with
  | [] => true
  | Call_cy_wcm_connect_ap _ :: rest => ready && separated_from ticks false rest
  | Call_vTaskDelay t :: rest =>
      separated_from ticks (ready || (ticks <=? t)) rest
  | _ :: rest => separated_from ticks ready rest
  end.

Definition attempts_separated (ticks : Z) (tr : list event) : bool :=
  separated_from ticks true tr.

(** The call that opens [connect_to_wifi_ap]. *)
Definition wcm_init_event `{Headers} : event :=
  Call_cy_wcm_init {| interface := CY_WCM_INTERFACE_TYPE_STA |}.

(** What one failed pass through the loop body leaves in the trace. *)
Definition failed_attempt `{Headers} (D : Z) (r : cy_rslt_t) : list event :=
  [ Call_cy_wcm_connect_ap wifi_conn_param;
    Call_printf fmt_retrying [ArgInt (int_of_uint32 r); ArgInt D];
    Call_vTaskDelay (pdMS_TO_TICKS D) ].

(** The successful pass. *)
Definition good_attempt `{Headers} : list event :=
  [ Call_cy_wcm_connect_ap wifi_conn_param;
    Call_printf fmt_connected [ArgStr WIFI_SSID] ].

(** [n] failed passes, the first of which is call number [c] of the join. *)
Definition failed_attempts `{Headers} (E : env) (D : Z) (c n : nat)
  : list event :=
  flat_map (fun k => failed_attempt D (connect_ap_result E (c + k))) (seq 0 n).

(** The network parameters as [ota_task] hands them to the agent: those of
    the world with the network interface filled in. *)
Definition network_params_at_start `{Headers} (w : world)
  : cy_ota_network_params_t :=
  {| server := server (ota_network_params w);
     transport := transport (ota_network_params w);
     u_mqtt := u_mqtt (ota_network_params w);
     np_credentials := np_credentials (ota_network_params w);
     network_interface := IOT_NETWORK_INTERFACE_CY_SECURE_SOCKETS |}.

(** The call that activates the agent and registers the callback. *)
Definition agent_start_event `{Headers} (w : world) : event :=
  Call_cy_ota_agent_start (network_params_at_start w) ota_agent_params
                          Addr_ota_context.

(** The result code of that call. *)
Definition agent_start_code `{Headers} (E : env) (w : world) : cy_rslt_t :=
  fst (agent_start_result E (network_params_at_start w) ota_agent_params).

(** The value held by [result] after [n] failed passes that began at call
    [c], when it held [res] before them. *)
Definition last_result (E : env) (c n : nat) (res : option cy_rslt_t)
  : option cy_rslt_t :=
  match n with
  | O => res
  | S m => Some (connect_ap_result E (c + m))
  end.

(** The join answers success at call [k] and at no call in [c, k). *)
Definition first_success_at `{Headers} (E : env) (c k : nat) : Prop :=
  (forall j, (c <= j < k)%nat -> connect_ap_result E j <> CY_RSLT_SUCCESS) /\
  connect_ap_result E k = CY_RSLT_SUCCESS.

(** A concrete set of header values and collaborators to run the model on. *)
Definition demo_headers : Headers :=
  {| CY_RSLT_SUCCESS := 0;
     IOT_NETWORK_SUCCESS := 0;
     IOT_MQTT_SUCCESS := 0;
     pdMS_TO_TICKS := fun ms => ms * 1000 / 1000;
     CY_WCM_INTERFACE_TYPE_STA := 0;
     CY_OTA_TRANSPORT_MQTT := 0;
     IOT_NETWORK_INTERFACE_CY_SECURE_SOCKETS := Extern 1;
     WIFI_SSID := "ssid";
     WIFI_PASSWORD := "secret";
     WIFI_SECURITY := 4;
     ROOT_CA_CERTIFICATE := "ca";
     CLIENT_CERTIFICATE := "cert";
     CLIENT_KEY := "key";
     MQTT_BROKER_URL := "broker";
     MQTT_SERVER_PORT := 8883;
     my_topics := ["ota/image"%string];
     MQTT_TOPIC_FILTER_NUM := 1;
     OTA_MQTT_ID := "device";
     AWS_IOT_MQTT_MODE := 0;
     ENABLE_TLS := true |}.

(** Collaborators whose join fails until call [k] and whose other stages
    answer as given. *)
Definition demo_env (k : nat) (sdk : bool) (sockets mqtt start : Z) : env :=
  {| wcm_init_result := 0;
     connect_ap_result := fun j => if (j <? k)%nat then 7 else 0;
     IotSdk_Init_result := sdk;
     IotNetworkSecureSockets_Init_result := sockets;
     IotMqtt_Init_result := mqtt;
     agent_start_result := fun _ _ => (start, Some (Extern 64));
     get_state_result := fun _ => 0;
     reason_strings := [(0, "state change"%string); (1, "success"%string)];
     state_strings := [(0, "not initialized"%string); (5, "downloading"%string)];
     error_strings := [(0, "none"%string)] |}.

(** Collaborators whose join never succeeds. *)
Definition failing_env : env :=
  {| wcm_init_result := 0;
     connect_ap_result := fun _ => 7;
     IotSdk_Init_result := true;
     IotNetworkSecureSockets_Init_result := 0;
     IotMqtt_Init_result := 0;
     agent_start_result := fun _ _ => (0, Some (Extern 64));
     get_state_result := fun _ => 0;
     reason_strings := [];
     state_strings := [];
     error_strings := [] |}.

Definition world0 `{Headers} : world :=
  {| trace := [];
     connect_calls := 0;
     ota_context := NULL;
     ota_network_params := ota_network_params_init;
     agent := {| agent_state := fun _ => 0; last_error := 0 |} |}.

(** The events a computation adds to the trace of the world it starts in. *)
Definition events_of {A} (c : M A) (w : world) : list event :=
  skipn (List.length (trace w)) (trace (snd (c w))).

(** None of the [n] join attempts that begin at call [c] succeeds. *)
Definition join_exhausted `{Headers} (E : env) (c n : nat) : Prop :=
  forall j, (j < n)%nat -> connect_ap_result E (c + j) <> CY_RSLT_SUCCESS.

(** One of the [n] join attempts that begin at call [c] succeeds. *)
Definition join_succeeds `{Headers} (E : env) (c n : nat) : Prop :=
  exists k, (k < n)%nat /\ first_success_at E c (c + k).

(** The collaborators [E], except that [cy_wcm_init] answers [r]. *)
Definition with_wcm_init_result (E : env) (r : cy_rslt_t) : env :=
  {| wcm_init_result := r;
     connect_ap_result := connect_ap_result E;
     IotSdk_Init_result := IotSdk_Init_result E;
     IotNetworkSecureSockets_Init_result := IotNetworkSecureSockets_Init_result E;
     IotMqtt_Init_result := IotMqtt_Init_result E;
     agent_start_result := agent_start_result E;
     get_state_result := get_state_result E;
     reason_strings := reason_strings E;
     state_strings := state_strings E;
     error_strings := error_strings E |}.

Definition is_suspend (e : event) : bool :=
  match e with Call_vTaskSuspend _ => true | _ => false end.

(** The calls that [connect_to_wifi_ap] makes. *)
Definition is_join_event (e : event) : bool :=
  match e with
  | Call_cy_wcm_init _ | Call_cy_wcm_connect_ap _
  | Call_printf _ _ | Call_vTaskDelay _ => true
  | _ => false
  end.

(** The calls that begin a stage after the join, or end the task. *)
Definition is_stage_event (e : event) : bool :=
  match e with
  | Call_IotSdk_Init | Call_IotNetworkSecureSockets_Init | Call_IotMqtt_Init
  | Call_cy_ota_agent_start _ _ _ | Call_vTaskSuspend _ => true
  | _ => false
  end.

(** The fatal conditions of the bring-up, in the order of the stages. *)
Inductive fatal_condition : Type :=
| JoinExhausted
| RuntimeSupportFailed
| SecureTransportFailed
| MessagingFailed
| AgentActivationFailed.

(** The line [ota_task] prints for each of them. *)
Definition diagnostic (c : fatal_condition) : string :=
  match c with
  | JoinExhausted => msg_wifi_failed
  | RuntimeSupportFailed => msg_sdk_failed
  | SecureTransportFailed => msg_sockets_failed
  | MessagingFailed => msg_mqtt_failed
  | AgentActivationFailed => msg_agent_failed
  end.

(** The stage calls made after the join, up to the one that fails. *)
Definition stage_calls `{Headers} (w : world) (c : fatal_condition)
  : list event :=
  match c with
  | JoinExhausted => []
  | RuntimeSupportFailed => [Call_IotSdk_Init]
  | SecureTransportFailed =>
      [Call_IotSdk_Init; Call_IotNetworkSecureSockets_Init]
  | MessagingFailed =>
      [Call_IotSdk_Init; Call_IotNetworkSecureSockets_Init; Call_IotMqtt_Init]
  | AgentActivationFailed =>
      [Call_IotSdk_Init; Call_IotNetworkSecureSockets_Init; Call_IotMqtt_Init;
       agent_start_event w]
  end.

(** When each of them arises: the stages before it answer success and the
    stage itself answers a failure. *)
Definition arises `{Headers} (E : env) (w : world) (c : fatal_condition)
  : Prop :=
  match c with
  | JoinExhausted =>
      exists r, fst (connect_to_wifi_ap E w) = Ret r /\ r <> CY_RSLT_SUCCESS
  | RuntimeSupportFailed =>
      fst (connect_to_wifi_ap E w) = Ret CY_RSLT_SUCCESS /\
      IotSdk_Init_result E = false
  | SecureTransportFailed =>
      fst (connect_to_wifi_ap E w) = Ret CY_RSLT_SUCCESS /\
      IotSdk_Init_result E = true /\
      IotNetworkSecureSockets_Init_result E <> IOT_NETWORK_SUCCESS
  | MessagingFailed =>
      fst (connect_to_wifi_ap E w) = Ret CY_RSLT_SUCCESS /\
      IotSdk_Init_result E = true /\
      IotNetworkSecureSockets_Init_result E = IOT_NETWORK_SUCCESS /\
      IotMqtt_Init_result E <> IOT_MQTT_SUCCESS
  | AgentActivationFailed =>
      fst (connect_to_wifi_ap E w) = Ret CY_RSLT_SUCCESS /\
      IotSdk_Init_result E = true /\
      IotNetworkSecureSockets_Init_result E = IOT_NETWORK_SUCCESS /\
      IotMqtt_Init_result E = IOT_MQTT_SUCCESS /\
      agent_start_code E w <> CY_RSLT_SUCCESS
  end.

(** Every entry of a code-to-text table carries some text. *)
Definition descriptive (table : list (Z * string)) : bool :=
  forallb (fun cs => negb (String.eqb (snd cs) EmptyString)) table.

(** A code that a table does not list. *)
Definition unmapped (table : list (Z * string)) (code : Z) : bool :=
  forallb (fun cs => negb (fst cs =? code)) table.

(** The ticks asked of [vTaskDelay] over a whole trace. *)
Fixpoint total_delay (tr : list event) : Z :=
  match tr with
  | [] => 0
  | Call_vTaskDelay t :: rest => t + total_delay rest
  | _ :: rest => total_delay rest
  end.

Definition is_wcm_init (e : event) : bool :=
  match e with Call_cy_wcm_init _ => true | _ => false end.

(** One of the five lines that [ota_task] prints before it asserts. *)
Definition is_fatal_line (e : event) : bool :=
  match e with
  | Call_printf f [] =>
      existsb (String.eqb f)
              [msg_wifi_failed; msg_sdk_failed; msg_sockets_failed;
               msg_mqtt_failed; msg_agent_failed]
  | _ => false
  end.

(** The context that [cy_ota_agent_start] leaves in [ota_context] when it is
    called in a run that began in [w]: the one the library stores, or the
    old one when it stores none. *)
Definition context_after_start `{Headers} (E : env) (w : world)
  : cy_ota_context_ptr :=
  match snd (agent_start_result E (network_params_at_start w) ota_agent_params) with
  | Some c => c
  | None => ota_context w
  end.

(** The collaborators [E], except that [cy_ota_get_state] answers the result
    codes [f]. *)
Definition with_get_state_result (E : env) (f : cy_ota_context_ptr -> cy_rslt_t)
  : env :=
  {| wcm_init_result := wcm_init_result E;
     connect_ap_result := connect_ap_result E;
     IotSdk_Init_result := IotSdk_Init_result E;
     IotNetworkSecureSockets_Init_result := IotNetworkSecureSockets_Init_result E;
     IotMqtt_Init_result := IotMqtt_Init_result E;
     agent_start_result := agent_start_result E;
     get_state_result := f;
     reason_strings := reason_strings E;
     state_strings := state_strings E;
     error_strings := error_strings E |}.

(** Collaborators whose join always answers the code 2^32 - 1. *)
Definition rejecting_env : env :=
  {| wcm_init_result := 0;
     connect_ap_result := fun _ => 4294967295;
     IotSdk_Init_result := true;
     IotNetworkSecureSockets_Init_result := 0;
     IotMqtt_Init_result := 0;
     agent_start_result := fun _ _ => (0, Some (Extern 64));
     get_state_result := fun _ => 0;
     reason_strings := [];
     state_strings := [];
     error_strings := [] |}.

(** * Proofs *)

(** ** Worlds *)

Lemma advance_advance (w : world) (a b : list event) (n m : nat) :
  advance (advance w a n) b m = advance w (a ++ b) (n + m).
Proof.
  unfold advance; cbn. now rewrite app_assoc, Nat.add_assoc.
Qed.

Lemma run_emit (e : event) (w : world) :
  emit e w = (Ret tt, advance w [e] 0).
Proof.
  unfold emit, advance. now rewrite Nat.add_0_r.
Qed.

Lemma run_connect_ap `{Headers} (E : env) (p : cy_wcm_connect_params_t) (w : world) :
  cy_wcm_connect_ap E p w =
  (Ret (connect_ap_result E (connect_calls w)),
   advance w [Call_cy_wcm_connect_ap p] 1).
Proof.
  unfold cy_wcm_connect_ap, advance. now rewrite Nat.add_1_r.
Qed.

Lemma bind_run {A B} (c : M A) (k : A -> M B) (w w1 : world) (a : A) :
  c w = (Ret a, w1) -> bind c k w = k a w1.
Proof. intros Hc. unfold bind. now rewrite Hc. Qed.

Lemma skipn_length_app {A} (l r : list A) : skipn (List.length l) (l ++ r) = r.
Proof. induction l; cbn; auto. Qed.

Lemma events_of_advance {A} (c : M A) (w : world) o evs n :
  c w = (o, advance w evs n) -> events_of c w = evs.
Proof.
  intros Hc. unfold events_of. rewrite Hc. cbn. apply skipn_length_app.
Qed.

(** ** The loop of connect_to_wifi_ap *)

Section Loop.
Context `{Headers}.
Variable E : env.
Variables N D : Z.
Hypothesis N_uint32 : N < UINT32_MOD.

Lemma failed_attempts_S (c n : nat) :
  failed_attempts E D c (S n) =
  failed_attempt D (connect_ap_result E c) ++ failed_attempts E D (S c) n.
Proof.
  unfold failed_attempts. cbn [seq flat_map]. rewrite Nat.add_0_r.
  f_equal. rewrite <- seq_shift, flat_map_concat_map, map_map.
  rewrite <- flat_map_concat_map.
  apply flat_map_ext. intros k. now rewrite Nat.add_succ_r.
Qed.

Lemma failed_attempts_snoc (c n : nat) :
  failed_attempts E D c (S n) =
  failed_attempts E D c n ++ failed_attempt D (connect_ap_result E (c + n)).
Proof.
  unfold failed_attempts. rewrite seq_S, flat_map_app. cbn [flat_map Nat.add].
  now rewrite app_nil_r.
Qed.

(** One failed pass through the body. *)
Lemma connect_loop_step_fail fuel cr res w :
  cr < N ->
  connect_ap_result E (connect_calls w) <> CY_RSLT_SUCCESS ->
  connect_loop E N D (S fuel) cr res w =
  connect_loop E N D fuel (uint32_incr cr)
               (Some (connect_ap_result E (connect_calls w)))
               (advance w (failed_attempt D (connect_ap_result E (connect_calls w))) 1).
Proof.
  intros Hlt Hfail. cbn [connect_loop].
  apply Z.ltb_lt in Hlt. rewrite Hlt.
  unfold bind at 1. rewrite run_connect_ap.
  apply Z.eqb_neq in Hfail. rewrite Hfail.
  unfold printf, vTaskDelay, bind. rewrite !run_emit, !advance_advance.
  reflexivity.
Qed.

(** The successful pass. *)
Lemma connect_loop_step_ok fuel cr res w :
  cr < N ->
  connect_ap_result E (connect_calls w) = CY_RSLT_SUCCESS ->
  connect_loop E N D (S fuel) cr res w =
  (Ret CY_RSLT_SUCCESS, advance w good_attempt 1).
Proof.
  intros Hlt Hok. cbn [connect_loop].
  apply Z.ltb_lt in Hlt. rewrite Hlt.
  unfold bind at 1. rewrite run_connect_ap, Hok, Z.eqb_refl.
  unfold printf, bind. rewrite !run_emit, !advance_advance.
  reflexivity.
Qed.

(** Leaving the loop when the bound is reached. *)
Lemma connect_loop_exit fuel cr res w :
  N <= cr ->
  connect_loop E N D fuel cr res w =
  (match res with Some r => Ret r | None => Undef end,
   advance w [Call_printf fmt_exceeded []] 0).
Proof.
  intros Hge. apply Z.ltb_ge in Hge.
  destruct fuel; cbn [connect_loop]; rewrite Hge;
    unfold printf, bind; rewrite run_emit; now destruct res.
Qed.

Lemma connect_loop_all_fail (n : nat) :
  forall fuel cr res w,
    0 <= cr -> Z.of_nat n = N - cr -> (n <= fuel)%nat ->
    (forall j, (j < n)%nat ->
               connect_ap_result E (connect_calls w + j) <> CY_RSLT_SUCCESS) ->
    connect_loop E N D fuel cr res w =
    (match last_result E (connect_calls w) n res with
     | Some r => Ret r
     | None => Undef
     end,
     advance w (failed_attempts E D (connect_calls w) n
                ++ [Call_printf fmt_exceeded []]) n).
Proof.
  induction n as [|n IH]; intros fuel cr res w Hcr Hn Hfuel Hfail.
  - rewrite connect_loop_exit by lia. reflexivity.
  - destruct fuel as [|fuel]; [lia|].
    assert (Hlt : cr < N) by lia.
    rewrite connect_loop_step_fail; auto.
    2:{ specialize (Hfail O). rewrite Nat.add_0_r in Hfail. apply Hfail. lia. }
    assert (Hincr : uint32_incr cr = cr + 1).
    { unfold uint32_incr. apply Z.mod_small. lia. }
    rewrite Hincr.
    rewrite IH; try lia.
    + rewrite advance_advance, failed_attempts_S.
      cbn [advance connect_calls]. rewrite Nat.add_1_r, <- app_assoc.
      f_equal. destruct n; cbn [last_result]; [now rewrite Nat.add_0_r|].
      now rewrite Nat.add_succ_comm.
    + intros j Hj. cbn [advance connect_calls].
      replace (connect_calls w + 1 + j)%nat with (connect_calls w + S j)%nat by lia.
      apply Hfail. lia.
Qed.

Lemma connect_loop_first_success (k : nat) :
  forall fuel cr res w,
    0 <= cr -> cr + Z.of_nat k < N -> (k < fuel)%nat ->
    first_success_at E (connect_calls w) (connect_calls w + k) ->
    connect_loop E N D fuel cr res w =
    (Ret CY_RSLT_SUCCESS,
     advance w (failed_attempts E D (connect_calls w) k ++ good_attempt) (S k)).
Proof.
  induction k as [|k IH]; intros fuel cr res w Hcr Hk Hfuel [Hfail Hok].
  - destruct fuel as [|fuel]; [lia|].
    rewrite Nat.add_0_r in Hok.
    rewrite connect_loop_step_ok; auto. lia.
  - destruct fuel as [|fuel]; [lia|].
    rewrite connect_loop_step_fail; [|lia|apply Hfail; lia].
    assert (Hincr : uint32_incr cr = cr + 1).
    { unfold uint32_incr. apply Z.mod_small. lia. }
    rewrite Hincr, IH; try lia.
    + rewrite advance_advance, failed_attempts_S.
      cbn [advance connect_calls]. now rewrite Nat.add_1_r, <- app_assoc.
    + cbn [advance connect_calls].
      replace (connect_calls w + 1 + k)%nat with (connect_calls w + S k)%nat by lia.
      split; [|exact Hok]. intros j Hj. apply Hfail. lia.
Qed.

(** Either some attempt among the next [n] is the first to succeed, or all
    of them fail. *)
Lemma join_cases (c n : nat) :
  (exists k, (k < n)%nat /\ first_success_at E c (c + k)) \/
  (forall j, (j < n)%nat -> connect_ap_result E (c + j) <> CY_RSLT_SUCCESS).
Proof.
  induction n as [|n [[k [Hk Hs]]|Hall]].
  - right. intros j Hj. lia.
  - left. exists k. split; [lia|exact Hs].
  - destruct (Z.eq_dec (connect_ap_result E (c + n)) CY_RSLT_SUCCESS) as [Heq|Hne].
    + left. exists n. split; [lia|]. split; [|exact Heq].
      intros j Hj. replace j with (c + (j - c))%nat by lia. apply Hall. lia.
    + right. intros j Hj. destruct (Nat.eq_dec j n) as [->|]; [exact Hne|].
      apply Hall. lia.
Qed.

End Loop.

(** ** connect_to_wifi_ap as a whole *)

Section Connect.
Context `{Headers}.
Variable E : env.
Variables N D : Z.
Hypothesis N_uint32 : N < UINT32_MOD.

Lemma connect_all_fail (w : world) :
  0 <= N ->
  (forall j, (j < Z.to_nat N)%nat ->
             connect_ap_result E (connect_calls w + j) <> CY_RSLT_SUCCESS) ->
  connect_to_wifi_ap_with E N D w =
  (match last_result E (connect_calls w) (Z.to_nat N) None with
   | Some r => Ret r
   | None => Undef
   end,
   advance w (wcm_init_event
                :: failed_attempts E D (connect_calls w) (Z.to_nat N)
                ++ [Call_printf fmt_exceeded []]) (Z.to_nat N)).
Proof.
  intros HN Hfail. unfold connect_to_wifi_ap_with, cy_wcm_init, bind.
  rewrite run_emit. cbn beta iota. unfold ret at 1. cbn beta iota.
  rewrite (connect_loop_all_fail E N D N_uint32 (Z.to_nat N));
    cbn [advance connect_calls]; rewrite ?Nat.add_0_r; try lia; auto.
  rewrite advance_advance. reflexivity.
Qed.

Lemma connect_first_success (k : nat) (w : world) :
  Z.of_nat k < N ->
  first_success_at E (connect_calls w) (connect_calls w + k) ->
  connect_to_wifi_ap_with E N D w =
  (Ret CY_RSLT_SUCCESS,
   advance w (wcm_init_event
                :: failed_attempts E D (connect_calls w) k ++ good_attempt)
           (S k)).
Proof.
  intros Hk Hs. unfold connect_to_wifi_ap_with, cy_wcm_init, bind.
  rewrite run_emit. cbn beta iota. unfold ret at 1. cbn beta iota.
  rewrite (connect_loop_first_success E N D N_uint32 k);
    cbn [advance connect_calls]; rewrite ?Nat.add_0_r; try lia; auto.
  rewrite advance_advance. reflexivity.
Qed.

End Connect.

(** ** ota_task after the join *)

Section Stages.
Context `{Headers}.
Variable E : env.
Variables N D : Z.

Ltac crunch :=
  cbn -[Z.eqb String.append LF];
  rewrite <- ?app_assoc; cbn [app];
  rewrite ?skipn_length_app.

(** The join reported a failure: one line, then the assertion. *)
Lemma ota_task_join_failed (w : world) r evs n :
  connect_to_wifi_ap_with E N D w = (Ret r, advance w evs n) ->
  r <> CY_RSLT_SUCCESS ->
  fst (ota_task_with E N D w) = Halted /\
  events_of (ota_task_with E N D) w = evs ++ [Call_printf msg_wifi_failed []].
Proof.
  intros Hc Hr. apply Z.eqb_neq in Hr.
  unfold events_of, ota_task_with. rewrite !(bind_run _ _ _ _ _ Hc), Hr.
  now crunch.
Qed.

(** The join reported success: the four later stages run in order, each
    one only after the one before it answered success. *)
Lemma ota_task_after_join (w : world) evs n :
  connect_to_wifi_ap_with E N D w = (Ret CY_RSLT_SUCCESS, advance w evs n) ->
  let out := fst (ota_task_with E N D w) in
  let tr := events_of (ota_task_with E N D) w in
  (IotSdk_Init_result E = false /\ out = Halted /\
   tr = evs ++ [Call_IotSdk_Init; Call_printf msg_sdk_failed []])
  \/
  (IotSdk_Init_result E = true /\
   IotNetworkSecureSockets_Init_result E <> IOT_NETWORK_SUCCESS /\
   out = Halted /\
   tr = evs ++ [Call_IotSdk_Init; Call_IotNetworkSecureSockets_Init;
                Call_printf msg_sockets_failed []])
  \/
  (IotSdk_Init_result E = true /\
   IotNetworkSecureSockets_Init_result E = IOT_NETWORK_SUCCESS /\
   IotMqtt_Init_result E <> IOT_MQTT_SUCCESS /\
   out = Halted /\
   tr = evs ++ [Call_IotSdk_Init; Call_IotNetworkSecureSockets_Init;
                Call_IotMqtt_Init; Call_printf msg_mqtt_failed []])
  \/
  (IotSdk_Init_result E = true /\
   IotNetworkSecureSockets_Init_result E = IOT_NETWORK_SUCCESS /\
   IotMqtt_Init_result E = IOT_MQTT_SUCCESS /\
   agent_start_code E w <> CY_RSLT_SUCCESS /\
   out = Halted /\
   tr = evs ++ [Call_IotSdk_Init; Call_IotNetworkSecureSockets_Init;
                Call_IotMqtt_Init; agent_start_event w;
                Call_printf msg_agent_failed []])
  \/
  (IotSdk_Init_result E = true /\
   IotNetworkSecureSockets_Init_result E = IOT_NETWORK_SUCCESS /\
   IotMqtt_Init_result E = IOT_MQTT_SUCCESS /\
   agent_start_code E w = CY_RSLT_SUCCESS /\
   out = Suspended /\
   tr = evs ++ [Call_IotSdk_Init; Call_IotNetworkSecureSockets_Init;
                Call_IotMqtt_Init; agent_start_event w;
                Call_vTaskSuspend NULL]).
Proof.
  intros Hc out tr. subst out tr.
  unfold events_of, ota_task_with. rewrite !(bind_run _ _ _ _ _ Hc), Z.eqb_refl.
  unfold agent_start_code, agent_start_event.
  destruct (IotSdk_Init_result E) eqn:Hsdk.
  2:{ left. crunch. rewrite Hsdk. now crunch. }
  right.
  destruct (Z.eqb_spec (IotNetworkSecureSockets_Init_result E) IOT_NETWORK_SUCCESS)
    as [Hso|Hso].
  2:{ left. apply Z.eqb_neq in Hso as Hso'. crunch. rewrite Hsdk. crunch.
      rewrite Hso'. now crunch. }
  right.
  destruct (Z.eqb_spec (IotMqtt_Init_result E) IOT_MQTT_SUCCESS) as [Hmq|Hmq].
  2:{ left. apply Z.eqb_neq in Hmq as Hmq'. crunch. rewrite Hsdk. crunch.
      rewrite Hso, Z.eqb_refl. crunch. rewrite Hmq'. now crunch. }
  right.
  crunch. rewrite Hsdk. crunch. rewrite Hso, Z.eqb_refl. crunch.
  rewrite Hmq, Z.eqb_refl. crunch.
  unfold network_params_at_start, cy_ota_agent_start, bind, get_world.
  cbn -[Z.eqb String.append LF].
  destruct (agent_start_result E _ ota_agent_params) as [a [c|]]; crunch;
    (destruct (Z.eqb_spec a CY_RSLT_SUCCESS) as [Ha|Ha]; [right|left]);
    crunch; repeat split; auto.
Qed.

End Stages.


(** ** Counting and spacing of the join attempts *)

Section Attempts.
Context `{Headers}.
Variable E : env.
Variable D : Z.

Lemma count_app (p : event -> bool) (a b : list event) :
  count p (a ++ b) = (count p a + count p b)%nat.
Proof. unfold count. now rewrite filter_app, length_app. Qed.

Lemma count_connect_failed_attempts (n : nat) :
  forall c, count is_connect (failed_attempts E D c n) = n.
Proof.
  induction n as [|n IH]; intros c; [reflexivity|].
  rewrite failed_attempts_S, count_app, IH. reflexivity.
Qed.

Lemma count_delay_failed_attempts (n : nat) :
  forall c, count is_delay (failed_attempts E D c n) = n.
Proof.
  induction n as [|n IH]; intros c; [reflexivity|].
  rewrite failed_attempts_S, count_app, IH. reflexivity.
Qed.

Lemma separated_failed_attempts (n : nat) :
  forall c rest,
    separated_from (pdMS_TO_TICKS D) true (failed_attempts E D c n ++ rest) =
    separated_from (pdMS_TO_TICKS D) true rest.
Proof.
  induction n as [|n IH]; intros c rest; [reflexivity|].
  rewrite failed_attempts_S, <- app_assoc.
  cbn [failed_attempt app separated_from andb orb].
  rewrite Z.leb_refl. apply IH.
Qed.

End Attempts.

(** * The claims *)

(** C1. When the join fails on every one of its attempts, for any bound [N]
    (positive, 32-bit) and delay [D]: [connect_to_wifi_ap] makes exactly [N]
    attempts, each followed by a [vTaskDelay] of [pdMS_TO_TICKS D] so that
    consecutive attempts are at least that far apart, then reports that the
    attempts are used up; [ota_task] prints its failure line and halts. *)
Theorem join_exhaustion_halts `{Headers} (E : env) (N D : Z) (w : world) :
  0 < N < UINT32_MOD ->
  join_exhausted E (connect_calls w) (Z.to_nat N) ->
  let joined := events_of (connect_to_wifi_ap_with E N D) w in
  joined = wcm_init_event
             :: failed_attempts E D (connect_calls w) (Z.to_nat N)
             ++ [Call_printf fmt_exceeded []] /\
  Z.of_nat (count is_connect joined) = N /\
  attempts_separated (pdMS_TO_TICKS D) joined = true /\
  fst (ota_task_with E N D w) = Halted /\
  events_of (ota_task_with E N D) w = joined ++ [Call_printf msg_wifi_failed []].
Proof.
  intros [Hpos Hmax] Hfail joined.
  pose proof (connect_all_fail E N D Hmax w ltac:(lia) Hfail) as Hc.
  assert (Hj : joined = wcm_init_event
             :: failed_attempts E D (connect_calls w) (Z.to_nat N)
             ++ [Call_printf fmt_exceeded []])
    by (subst joined; eapply events_of_advance; exact Hc).
  destruct (Z.to_nat N) as [|m] eqn:Hm; [lia|].
  cbn [last_result] in Hc.
  assert (Hlast : connect_ap_result E (connect_calls w + m) <> CY_RSLT_SUCCESS)
    by (apply Hfail; lia).
  destruct (ota_task_join_failed E N D w _ _ _ Hc Hlast) as [Hout Htr].
  rewrite Hj. repeat split; auto.
  - change (wcm_init_event :: ?l) with ([wcm_init_event] ++ l).
    rewrite !count_app, count_connect_failed_attempts. cbn. lia.
  - unfold attempts_separated. cbn [separated_from wcm_init_event].
    rewrite separated_failed_attempts. reflexivity.
Qed.

Lemma join_exhaustion_halts_witness :
  fst (@ota_task_with demo_headers failing_env 3 500 (@world0 demo_headers))
  = Halted.
Proof.
  refine (proj1 (proj2 (proj2 (proj2
    (@join_exhaustion_halts demo_headers failing_env 3 500
       (@world0 demo_headers) _ _))))).
  - split; reflexivity.
  - intros j _. cbn. discriminate.
Defined.

(** C2. When the join fails on its first [k - 1] attempts and succeeds on
    attempt [k], with [1 <= k <= N]: [connect_to_wifi_ap] makes exactly [k]
    attempts and returns the success code, and [ota_task] goes on to the
    runtime-support initialisation instead of halting. *)
Theorem join_succeeds_on_attempt `{Headers} (E : env) (N D k : Z) (w : world) :
  1 <= k <= N ->
  N < UINT32_MOD ->
  first_success_at E (connect_calls w) (connect_calls w + Z.to_nat (k - 1)) ->
  let joined := events_of (connect_to_wifi_ap_with E N D) w in
  fst (connect_to_wifi_ap_with E N D w) = Ret CY_RSLT_SUCCESS /\
  joined = wcm_init_event
             :: failed_attempts E D (connect_calls w) (Z.to_nat (k - 1))
             ++ good_attempt /\
  Z.of_nat (count is_connect joined) = k /\
  exists rest,
    events_of (ota_task_with E N D) w = joined ++ Call_IotSdk_Init :: rest.
Proof.
  intros Hk Hmax Hs joined.
  pose proof (connect_first_success E N D Hmax (Z.to_nat (k - 1)) w
                ltac:(lia) Hs) as Hc.
  assert (Hj : joined = wcm_init_event
             :: failed_attempts E D (connect_calls w) (Z.to_nat (k - 1))
             ++ good_attempt)
    by (subst joined; eapply events_of_advance; exact Hc).
  split; [now rewrite Hc|]. split; [exact Hj|]. split.
  - rewrite Hj. change (wcm_init_event :: ?l) with ([wcm_init_event] ++ l).
    rewrite !count_app, count_connect_failed_attempts. cbn. lia.
  - rewrite Hj.
    destruct (ota_task_after_join E N D w _ _ Hc)
      as [(_ & _ & ->)|[(_ & _ & _ & ->)|[(_ & _ & _ & _ & ->)
         |[(_ & _ & _ & _ & _ & ->)|(_ & _ & _ & _ & _ & ->)]]]];
      eexists; reflexivity.
Qed.

Lemma join_succeeds_on_attempt_witness :
  fst (@connect_to_wifi_ap_with demo_headers (demo_env 2 true 0 0 0) 10 500
         (@world0 demo_headers)) = Ret 0.
Proof.
  refine (proj1 (@join_succeeds_on_attempt demo_headers (demo_env 2 true 0 0 0)
                   10 500 3 (@world0 demo_headers) _ _ _)).
  - lia.
  - reflexivity.
  - split.
    + intros j Hj. vm_compute in Hj.
      destruct j as [|[|j]]; [cbn; discriminate ..|lia].
    + reflexivity.
Defined.

(** C10. When all [N] attempts fail, [connect_to_wifi_ap] returns the code
    that the last call of [cy_wcm_connect_ap] produced, and no other value;
    every failed attempt, the last one included, is followed by the delay
    before the function reports exhaustion and returns. *)
Theorem exhaustion_returns_last_error `{Headers} (E : env) (N D : Z) (w : world) :
  0 < N < UINT32_MOD ->
  join_exhausted E (connect_calls w) (Z.to_nat N) ->
  let last := connect_ap_result E (connect_calls w + (Z.to_nat N - 1)) in
  let joined := events_of (connect_to_wifi_ap_with E N D) w in
  fst (connect_to_wifi_ap_with E N D w) = Ret last /\
  last <> CY_RSLT_SUCCESS /\
  Z.of_nat (count is_delay joined) = N /\
  joined = wcm_init_event
             :: failed_attempts E D (connect_calls w) (Z.to_nat N - 1)
             ++ [Call_cy_wcm_connect_ap wifi_conn_param;
                 Call_printf fmt_retrying
                             [ArgInt (int_of_uint32 last); ArgInt D];
                 Call_vTaskDelay (pdMS_TO_TICKS D);
                 Call_printf fmt_exceeded []].
Proof.
  intros [Hpos Hmax] Hfail last joined.
  pose proof (connect_all_fail E N D Hmax w ltac:(lia) Hfail) as Hc.
  assert (Hj : joined = wcm_init_event
             :: failed_attempts E D (connect_calls w) (Z.to_nat N)
             ++ [Call_printf fmt_exceeded []])
    by (subst joined; eapply events_of_advance; exact Hc).
  assert (HN : Z.to_nat N = S (Z.to_nat N - 1)) by lia.
  split; [|split; [|split]].
  - rewrite Hc, HN. cbn [last_result fst]. reflexivity.
  - apply Hfail. lia.
  - rewrite Hj. change (wcm_init_event :: ?l) with ([wcm_init_event] ++ l).
    rewrite !count_app, count_delay_failed_attempts. cbn. lia.
  - rewrite Hj. rewrite HN at 1. rewrite failed_attempts_snoc, <- app_assoc.
    reflexivity.
Qed.

Lemma exhaustion_returns_last_error_witness :
  fst (@connect_to_wifi_ap_with demo_headers failing_env 3 500
         (@world0 demo_headers)) = Ret 7.
Proof.
  refine (proj1 (@exhaustion_returns_last_error demo_headers failing_env 3 500
                   (@world0 demo_headers) _ _)).
  - split; reflexivity.
  - intros j _. cbn. discriminate.
Defined.

(** ** The shape of a run of ota_task *)

Section Shape.
Context `{Headers}.
Variable E : env.
Variables N D : Z.
Hypothesis N_range : 0 < N < UINT32_MOD.

Lemma join_events_failed_attempts (n : nat) :
  forall c, forallb is_join_event (failed_attempts E D c n) = true.
Proof.
  induction n as [|n IH]; intros c; [reflexivity|].
  rewrite failed_attempts_S, forallb_app, IH. reflexivity.
Qed.

Lemma occurs_after_join (p : event -> bool) (evs rest : list event) :
  (forall e, p e = true -> is_stage_event e = true) ->
  forallb is_join_event evs = true ->
  occurs p (evs ++ rest) = occurs p rest.
Proof.
  intros Hp Hevs. unfold occurs. rewrite existsb_app.
  replace (existsb p evs) with false; [reflexivity|].
  symmetry. induction evs as [|e evs IH]; [reflexivity|].
  cbn in Hevs. apply andb_true_iff in Hevs as [He Hevs].
  cbn. rewrite IH by assumption.
  destruct (p e) eqn:Hpe; [|reflexivity].
  apply Hp in Hpe. destruct e; discriminate.
Qed.

Lemma join_succeeds_not_exhausted (c n : nat) :
  join_succeeds E c n -> join_exhausted E c n -> False.
Proof.
  intros (k & Hk & _ & Hok) Hall. exact (Hall k Hk Hok).
Qed.

(** Every run: the join either uses up its attempts, and the task halts
    after one more line, or succeeds, and the later stages follow. *)
Lemma ota_task_shape (w : world) :
  let joined := events_of (connect_to_wifi_ap_with E N D) w in
  let out := fst (ota_task_with E N D w) in
  let tr := events_of (ota_task_with E N D) w in
  forallb is_join_event joined = true /\
  ((exists r, fst (connect_to_wifi_ap_with E N D w) = Ret r /\
              r <> CY_RSLT_SUCCESS /\
              join_exhausted E (connect_calls w) (Z.to_nat N) /\
              out = Halted /\
              tr = joined ++ [Call_printf msg_wifi_failed []])
   \/
   (fst (connect_to_wifi_ap_with E N D w) = Ret CY_RSLT_SUCCESS /\
    join_succeeds E (connect_calls w) (Z.to_nat N) /\
    ((IotSdk_Init_result E = false /\ out = Halted /\
      tr = joined ++ [Call_IotSdk_Init; Call_printf msg_sdk_failed []])
     \/
     (IotSdk_Init_result E = true /\
      IotNetworkSecureSockets_Init_result E <> IOT_NETWORK_SUCCESS /\
      out = Halted /\
      tr = joined ++ [Call_IotSdk_Init; Call_IotNetworkSecureSockets_Init;
                      Call_printf msg_sockets_failed []])
     \/
     (IotSdk_Init_result E = true /\
      IotNetworkSecureSockets_Init_result E = IOT_NETWORK_SUCCESS /\
      IotMqtt_Init_result E <> IOT_MQTT_SUCCESS /\
      out = Halted /\
      tr = joined ++ [Call_IotSdk_Init; Call_IotNetworkSecureSockets_Init;
                      Call_IotMqtt_Init; Call_printf msg_mqtt_failed []])
     \/
     (IotSdk_Init_result E = true /\
      IotNetworkSecureSockets_Init_result E = IOT_NETWORK_SUCCESS /\
      IotMqtt_Init_result E = IOT_MQTT_SUCCESS /\
      agent_start_code E w <> CY_RSLT_SUCCESS /\
      out = Halted /\
      tr = joined ++ [Call_IotSdk_Init; Call_IotNetworkSecureSockets_Init;
                      Call_IotMqtt_Init; agent_start_event w;
                      Call_printf msg_agent_failed []])
     \/
     (IotSdk_Init_result E = true /\
      IotNetworkSecureSockets_Init_result E = IOT_NETWORK_SUCCESS /\
      IotMqtt_Init_result E = IOT_MQTT_SUCCESS /\
      agent_start_code E w = CY_RSLT_SUCCESS /\
      out = Suspended /\
      tr = joined ++ [Call_IotSdk_Init; Call_IotNetworkSecureSockets_Init;
                      Call_IotMqtt_Init; agent_start_event w;
                      Call_vTaskSuspend NULL])))).
Proof.
  intros joined out tr. destruct N_range as [Hpos Hmax].
  destruct (join_cases E (connect_calls w) (Z.to_nat N)) as [(k & Hk & Hs)|Hall].
  - pose proof (connect_first_success E N D Hmax k w ltac:(lia) Hs) as Hc.
    assert (Hj : joined = wcm_init_event
               :: failed_attempts E D (connect_calls w) k ++ good_attempt)
      by (subst joined; eapply events_of_advance; exact Hc).
    split.
    + rewrite Hj. cbn [forallb wcm_init_event is_join_event andb].
      now rewrite forallb_app, join_events_failed_attempts.
    + right. split; [now rewrite Hc|]. split; [now exists k|].
      rewrite Hj. exact (ota_task_after_join E N D w _ _ Hc).
  - pose proof (connect_all_fail E N D Hmax w ltac:(lia) Hall) as Hc.
    assert (Hj : joined = wcm_init_event
               :: failed_attempts E D (connect_calls w) (Z.to_nat N)
               ++ [Call_printf fmt_exceeded []])
      by (subst joined; eapply events_of_advance; exact Hc).
    split.
    + rewrite Hj. cbn [forallb wcm_init_event is_join_event andb].
      now rewrite forallb_app, join_events_failed_attempts.
    + left. destruct (Z.to_nat N) as [|m] eqn:Hm; [lia|].
      cbn [last_result] in Hc.
      assert (Hlast : connect_ap_result E (connect_calls w + m) <> CY_RSLT_SUCCESS)
        by (apply Hall; lia).
      destruct (ota_task_join_failed E N D w _ _ _ Hc Hlast) as [Hout Htr].
      eexists. split; [now rewrite Hc|]. split; [exact Hlast|].
      split; [exact Hall|]. split; [exact Hout|]. now rewrite Hj.
Qed.

End Shape.

Lemma MAX_CONNECTION_RETRIES_range : 0 < MAX_CONNECTION_RETRIES < UINT32_MOD.
Proof. split; reflexivity. Qed.

Ltac stage_pred :=
  let e := fresh "e" in intros e; destruct e; cbn; congruence.

Ltac eval_occurs Hjoin :=
  rewrite ?(occurs_after_join is_sdk_init _ _ ltac:(stage_pred) Hjoin),
          ?(occurs_after_join is_sockets_init _ _ ltac:(stage_pred) Hjoin),
          ?(occurs_after_join is_mqtt_init _ _ ltac:(stage_pred) Hjoin),
          ?(occurs_after_join is_agent_start _ _ ltac:(stage_pred) Hjoin),
          ?(occurs_after_join is_suspend _ _ ltac:(stage_pred) Hjoin);
  cbn [occurs existsb orb is_sdk_init is_sockets_init is_mqtt_init
       is_agent_start is_suspend agent_start_event] in *.

(** C3. In every run of [ota_task], each stage after the join is invoked
    only when the stage before it was invoked and reported success; when a
    stage reports a failure the task halts and none of the later stages is
    invoked. *)
Theorem stage_ordering `{Headers} (E : env) (w : world) :
  let out := fst (ota_task E w) in
  let tr := events_of (ota_task E) w in
  (occurs is_sdk_init tr = true ->
   fst (connect_to_wifi_ap E w) = Ret CY_RSLT_SUCCESS) /\
  (occurs is_sockets_init tr = true ->
   occurs is_sdk_init tr = true /\ IotSdk_Init_result E = true) /\
  (occurs is_mqtt_init tr = true ->
   occurs is_sockets_init tr = true /\
   IotNetworkSecureSockets_Init_result E = IOT_NETWORK_SUCCESS) /\
  (occurs is_agent_start tr = true ->
   occurs is_mqtt_init tr = true /\
   IotMqtt_Init_result E = IOT_MQTT_SUCCESS) /\
  (forall r, fst (connect_to_wifi_ap E w) = Ret r -> r <> CY_RSLT_SUCCESS ->
             out = Halted /\
             occurs is_sdk_init tr = false /\
             occurs is_sockets_init tr = false /\
             occurs is_mqtt_init tr = false /\
             occurs is_agent_start tr = false) /\
  (occurs is_sdk_init tr = true -> IotSdk_Init_result E = false ->
   out = Halted /\
   occurs is_sockets_init tr = false /\
   occurs is_mqtt_init tr = false /\
   occurs is_agent_start tr = false) /\
  (occurs is_sockets_init tr = true ->
   IotNetworkSecureSockets_Init_result E <> IOT_NETWORK_SUCCESS ->
   out = Halted /\
   occurs is_mqtt_init tr = false /\
   occurs is_agent_start tr = false) /\
  (occurs is_mqtt_init tr = true ->
   IotMqtt_Init_result E <> IOT_MQTT_SUCCESS ->
   out = Halted /\ occurs is_agent_start tr = false) /\
  (occurs is_agent_start tr = true ->
   agent_start_code E w <> CY_RSLT_SUCCESS ->
   out = Halted /\ occurs is_suspend tr = false).
Proof.
  intros out tr.
  destruct (ota_task_shape E _ WIFI_CONN_RETRY_DELAY_MS
              MAX_CONNECTION_RETRIES_range w) as [Hjoin Hshape].
  fold (connect_to_wifi_ap E) in Hjoin, Hshape.
  fold (ota_task E) in Hshape. fold out tr in Hshape.
  destruct Hshape as [(r & Hr & Hne & _ & Hout & Htr)|(Hr & _ & Hrest)].
  - rewrite Htr, Hout, Hr. eval_occurs Hjoin.
    repeat split; intros; try discriminate; try congruence.
  - rewrite Hr.
    destruct Hrest as [(Hsdk & Hout & Htr)
                      |[(Hsdk & Hso & Hout & Htr)
                       |[(Hsdk & Hso & Hmq & Hout & Htr)
                        |[(Hsdk & Hso & Hmq & Ha & Hout & Htr)
                         |(Hsdk & Hso & Hmq & Ha & Hout & Htr)]]]];
      rewrite Htr, Hout; eval_occurs Hjoin;
      repeat split; intros; try discriminate; try congruence.
Qed.

Lemma count_after_join (p : event -> bool) (evs rest : list event) :
  (forall e, p e = true -> is_stage_event e = true) ->
  forallb is_join_event evs = true ->
  count p (evs ++ rest) = count p rest.
Proof.
  intros Hp Hevs. rewrite count_app.
  replace (count p evs) with O; [reflexivity|].
  symmetry. unfold count. induction evs as [|e evs IH]; [reflexivity|].
  cbn in Hevs. apply andb_true_iff in Hevs as [He Hevs].
  cbn. destruct (p e) eqn:Hpe; [|now apply IH].
  apply Hp in Hpe. destruct e; discriminate.
Qed.

(** C5. When the join succeeds within its attempts and every later stage
    answers success, [ota_task] activates the agent, handing it
    [ota_callback] and the address of [ota_context] in exactly one call of
    [cy_ota_agent_start], and then suspends itself: [vTaskSuspend(NULL)] is
    its last call. *)
Theorem bring_up_success `{Headers} (E : env) (w : world) :
  join_succeeds E (connect_calls w) (Z.to_nat MAX_CONNECTION_RETRIES) ->
  IotSdk_Init_result E = true ->
  IotNetworkSecureSockets_Init_result E = IOT_NETWORK_SUCCESS ->
  IotMqtt_Init_result E = IOT_MQTT_SUCCESS ->
  agent_start_code E w = CY_RSLT_SUCCESS ->
  let tr := events_of (ota_task E) w in
  fst (ota_task E w) = Suspended /\
  tr = events_of (connect_to_wifi_ap E) w
         ++ [Call_IotSdk_Init; Call_IotNetworkSecureSockets_Init;
             Call_IotMqtt_Init;
             Call_cy_ota_agent_start (network_params_at_start w)
                                     ota_agent_params Addr_ota_context;
             Call_vTaskSuspend NULL] /\
  count is_agent_start tr = 1%nat /\
  count is_suspend tr = 1%nat /\
  call_cb_func E (cb_func ota_agent_params) = ota_callback E /\
  cb_arg ota_agent_params = Addr_ota_context.
Proof.
  intros Hjoined Hsdk Hso Hmq Ha tr.
  destruct (ota_task_shape E _ WIFI_CONN_RETRY_DELAY_MS
              MAX_CONNECTION_RETRIES_range w) as [Hjoin Hshape].
  fold (connect_to_wifi_ap E) in Hjoin, Hshape.
  fold (ota_task E) in Hshape. fold tr in Hshape.
  destruct Hshape as [(r & _ & _ & Hex & _)|(_ & _ & Hrest)].
  { destruct (join_succeeds_not_exhausted E _ _ Hjoined Hex). }
  destruct Hrest as [(Hsdk' & _)
                    |[(_ & Hso' & _)
                     |[(_ & _ & Hmq' & _)
                      |[(_ & _ & _ & Ha' & _)
                       |(_ & _ & _ & _ & Hout & Htr)]]]];
    try congruence.
  split; [exact Hout|]. split; [exact Htr|].
  rewrite Htr,
    (count_after_join is_agent_start _ _ ltac:(stage_pred) Hjoin),
    (count_after_join is_suspend _ _ ltac:(stage_pred) Hjoin).
  repeat split.
Qed.

Lemma bring_up_success_witness :
  fst (@ota_task demo_headers (demo_env 2 true 0 0 0) (@world0 demo_headers))
  = Suspended.
Proof.
  refine (proj1 (@bring_up_success demo_headers (demo_env 2 true 0 0 0)
                   (@world0 demo_headers) _ _ _ _ _)); try reflexivity.
  exists 2%nat. split; [vm_compute; lia|]. split; [|reflexivity].
  intros j Hj. vm_compute in Hj.
  destruct j as [|[|j]]; [cbn; discriminate ..|lia].
Defined.

(** C8. The compiled-in bound is 10 and the compiled-in delay is 500 ms;
    the bound is positive (and fits the unsigned 32-bit counter) and the
    delay is not negative.  [connect_to_wifi_ap] and [ota_task] run with
    exactly these values. *)
Theorem compiled_in_configuration :
  MAX_CONNECTION_RETRIES = 10 /\
  WIFI_CONN_RETRY_DELAY_MS = 500 /\
  0 < MAX_CONNECTION_RETRIES /\
  MAX_CONNECTION_RETRIES < UINT32_MOD /\
  0 <= WIFI_CONN_RETRY_DELAY_MS /\
  (forall (H : Headers) (E : env),
      connect_to_wifi_ap E = connect_to_wifi_ap_with E 10 500 /\
      ota_task E = ota_task_with E 10 500).
Proof.
  repeat split; try reflexivity; discriminate.
Qed.

(** ** The result of cy_wcm_init *)

Lemma connect_loop_ignores_init `{Headers} (E : env) (r : cy_rslt_t) (N D : Z)
      (fuel : nat) :
  forall cr res w,
    connect_loop (with_wcm_init_result E r) N D fuel cr res w =
    connect_loop E N D fuel cr res w.
Proof.
  (* the loop reads [E] only through [connect_ap_result] *)
  induction fuel as [|fuel IH]; intros cr res w; cbn [connect_loop];
    destruct (cr <? N); reflexivity.
Qed.

Lemma connect_ignores_init `{Headers} (E : env) (r : cy_rslt_t) (N D : Z)
      (w : world) :
  connect_to_wifi_ap_with (with_wcm_init_result E r) N D w =
  connect_to_wifi_ap_with E N D w.
Proof.
  unfold connect_to_wifi_ap_with, cy_wcm_init, bind, emit, ret.
  apply connect_loop_ignores_init.
Qed.

(** C9. The answer of [cy_wcm_init] is never looked at.  Whatever code [r]
    it gives, [connect_to_wifi_ap] behaves as with any other code: its
    first call after the initialisation is a join attempt, and its result,
    the calls it makes and the whole run of [ota_task] are the same; so a
    failed initialisation by itself changes nothing about halting. *)
Theorem wcm_init_result_unchecked `{Headers} (E : env) (r : cy_rslt_t)
        (w : world) :
  connect_to_wifi_ap (with_wcm_init_result E r) w = connect_to_wifi_ap E w /\
  (exists rest,
      events_of (connect_to_wifi_ap (with_wcm_init_result E r)) w =
      wcm_init_event :: Call_cy_wcm_connect_ap wifi_conn_param :: rest) /\
  ota_task (with_wcm_init_result E r) w = ota_task E w.
Proof.
  assert (Hsame : connect_to_wifi_ap (with_wcm_init_result E r) w =
                  connect_to_wifi_ap E w) by apply connect_ignores_init.
  split; [exact Hsame|]. split.
  - unfold events_of. rewrite Hsame. fold (events_of (connect_to_wifi_ap E) w).
    destruct MAX_CONNECTION_RETRIES_range as [_ Hmax].
    destruct (join_cases E (connect_calls w) (Z.to_nat MAX_CONNECTION_RETRIES))
      as [(k & Hk & Hs)|Hall].
    + pose proof (connect_first_success E _ WIFI_CONN_RETRY_DELAY_MS Hmax k w
                    ltac:(lia) Hs) as Hc.
      apply events_of_advance in Hc. unfold connect_to_wifi_ap. rewrite Hc.
      destruct k; [|rewrite failed_attempts_S]; eexists; reflexivity.
    + pose proof (connect_all_fail E _ WIFI_CONN_RETRY_DELAY_MS Hmax w
                    ltac:(discriminate) Hall) as Hc.
      apply events_of_advance in Hc. unfold connect_to_wifi_ap. rewrite Hc.
      change (Z.to_nat MAX_CONNECTION_RETRIES) with 10%nat.
      rewrite failed_attempts_S. eexists; reflexivity.
  - unfold ota_task, ota_task_with, bind at 1 12.
    fold (connect_to_wifi_ap (with_wcm_init_result E r)).
    fold (connect_to_wifi_ap E). rewrite Hsame. reflexivity.
Qed.

(** ** ota_callback *)

Lemma lookup_text_descriptive (table : list (Z * string)) (code : Z) :
  descriptive table = true -> lookup_text table code <> EmptyString.
Proof.
  induction table as [|[c s] table IH]; cbn; [discriminate|].
  intros Hd. apply andb_true_iff in Hd as [Hs Hd].
  destruct (c =? code); [|now apply IH].
  intros ->. discriminate.
Qed.

Lemma lookup_text_unmapped (table : list (Z * string)) (code : Z) :
  unmapped table code = true -> lookup_text table code = "unknown"%string.
Proof.
  induction table as [|[c s] table IH]; cbn; [reflexivity|].
  intros Hu. apply andb_true_iff in Hu as [Hc Hu].
  apply negb_true_iff in Hc. rewrite Hc. now apply IH.
Qed.

(** What [ota_callback] prints in the world [w]. *)
Lemma run_ota_callback (E : env) (reason value : Z) (w : world) :
  ota_callback E reason value Addr_ota_context w =
  (Ret tt,
   advance w
     [Call_cy_ota_get_state (ota_context w);
      Call_printf fmt_callback
        [ArgPtr (ota_context w);
         ArgInt reason;
         ArgStr (cy_ota_get_callback_reason_string E reason);
         ArgLong value;
         ArgInt (agent_state (agent w) (ota_context w));
         ArgStr (cy_ota_get_state_string E
                   (agent_state (agent w) (ota_context w)));
         ArgStr (cy_ota_get_error_string E (last_error (agent w)))]] 0).
Proof.
  unfold ota_callback, load_context_ptr, cy_ota_get_state, cy_ota_last_error,
    printf, bind, get_world, ret.
  rewrite !run_emit, advance_advance. reflexivity.
Qed.

(** C6. Called with the context registered in [ota_agent_params], the
    callback reads the agent handle out of [ota_context], asks the agent
    for its state through [cy_ota_get_state], looks up the texts of the
    reason and of the state, and prints exactly one record: the handle, the
    reason code and its text, the value, the state code and its text, and
    the text of the last error. *)
Theorem event_sink_record (E : env) (reason : cy_ota_cb_reason_t)
        (value : uint32_t) (w : world) :
  let ctx := ota_context w in
  let ota_state := agent_state (agent w) ctx in
  let sink := call_cb_func E (cb_func ota_agent_params) reason value
                           (cb_arg ota_agent_params) in
  fst (sink w) = Ret tt /\
  events_of sink w =
    [Call_cy_ota_get_state ctx;
     Call_printf fmt_callback
       [ArgPtr ctx;
        ArgInt reason;
        ArgStr (cy_ota_get_callback_reason_string E reason);
        ArgLong value;
        ArgInt ota_state;
        ArgStr (cy_ota_get_state_string E ota_state);
        ArgStr (cy_ota_get_error_string E (last_error (agent w)))]] /\
  count is_printf (events_of sink w) = 1%nat /\
  count is_get_state (events_of sink w) = 1%nat.
Proof.
  intros ctx ota_state sink.
  assert (Hrun := run_ota_callback E reason value w).
  change (ota_callback E reason value Addr_ota_context) with sink in Hrun.
  assert (Hev := events_of_advance _ _ _ _ _ Hrun).
  rewrite Hev, Hrun. repeat split.
Qed.

(** C7. For every reason code, listed in the library's table or not, the
    callback returns normally (it neither halts, suspends nor runs into
    undefined behaviour) after printing its one record, calls nothing that
    waits, and leaves the agent's state, the context and the other globals
    as they were: only the trace grows.  With tables whose entries all carry
    text, the reason text and the state text in the printed record are never
    empty, and a code the table does not list is printed as "unknown". *)
Theorem event_sink_total (E : env) (reason : cy_ota_cb_reason_t)
        (value : uint32_t) (w : world) :
  descriptive (reason_strings E) = true ->
  descriptive (state_strings E) = true ->
  let sink := ota_callback E reason value Addr_ota_context in
  let w' := snd (sink w) in
  let ctx := ota_context w in
  let ota_state := agent_state (agent w) ctx in
  (exists reason_text state_text error_text,
      events_of sink w =
        [Call_cy_ota_get_state ctx;
         Call_printf fmt_callback
           [ArgPtr ctx; ArgInt reason; ArgStr reason_text; ArgLong value;
            ArgInt ota_state; ArgStr state_text; ArgStr error_text]] /\
      reason_text <> EmptyString /\
      state_text <> EmptyString /\
      (unmapped (reason_strings E) reason = true ->
       reason_text = "unknown"%string) /\
      (unmapped (state_strings E) ota_state = true ->
       state_text = "unknown"%string)) /\
  cy_ota_get_callback_reason_string E reason <> EmptyString /\
  (forall state, cy_ota_get_state_string E state <> EmptyString) /\
  (unmapped (reason_strings E) reason = true ->
   cy_ota_get_callback_reason_string E reason = "unknown"%string) /\
  fst (sink w) = Ret tt /\
  count is_delay (events_of sink w) = 0%nat /\
  count is_suspend (events_of sink w) = 0%nat /\
  agent w' = agent w /\
  ota_context w' = ota_context w /\
  ota_network_params w' = ota_network_params w /\
  connect_calls w' = connect_calls w.
Proof.
  intros Hreason Hstate sink w' ctx ota_state.
  assert (Hrun := run_ota_callback E reason value w).
  assert (Hev := events_of_advance _ _ _ _ _ Hrun).
  fold sink in Hrun, Hev. subst w'. rewrite Hev, Hrun.
  split.
  { exists (cy_ota_get_callback_reason_string E reason),
           (cy_ota_get_state_string E ota_state),
           (cy_ota_get_error_string E (last_error (agent w))).
    split; [reflexivity|].
    split; [now apply lookup_text_descriptive|].
    split; [now apply lookup_text_descriptive|].
    split; apply lookup_text_unmapped. }
  split; [now apply lookup_text_descriptive|].
  split; [intros state; now apply lookup_text_descriptive|].
  split; [apply lookup_text_unmapped|].
  cbn. rewrite Nat.add_0_r. repeat split.
Qed.

Lemma event_sink_total_witness :
  exists state_text error_text,
    events_of (ota_callback (demo_env 0 true 0 0 0) 77 42 Addr_ota_context)
              (@world0 demo_headers) =
    [Call_cy_ota_get_state NULL;
     Call_printf fmt_callback
       [ArgPtr NULL; ArgInt 77; ArgStr "unknown"; ArgLong 42;
        ArgInt 0; ArgStr state_text; ArgStr error_text]].
Proof.
  destruct (event_sink_total (demo_env 0 true 0 0 0) 77 42 (@world0 demo_headers)
              eq_refl eq_refl)
    as [(rt & st & et & Hev & _ & _ & Hun & _) _].
  exists st, et. rewrite <- (Hun eq_refl). exact Hev.
Defined.

(** * Concrete runs *)

(** Bound 3, delay 500 ms, a join that always fails with code 7: three
    attempts are logged and the task halts. *)
Example run_join_always_fails :
  let run := @ota_task_with demo_headers failing_env 3 500 (@world0 demo_headers) in
  fst run = Halted /\
  count is_connect (trace (snd run)) = 3%nat /\
  filter is_printf (trace (snd run)) =
    [Call_printf fmt_retrying [ArgInt 7; ArgInt 500];
     Call_printf fmt_retrying [ArgInt 7; ArgInt 500];
     Call_printf fmt_retrying [ArgInt 7; ArgInt 500];
     Call_printf fmt_exceeded [];
     Call_printf msg_wifi_failed []].
Proof. vm_compute. repeat split. Qed.

(** The join succeeds at once and every stage answers success. *)
Example run_all_stages_succeed :
  let run := @ota_task demo_headers (demo_env 0 true 0 0 0) (@world0 demo_headers) in
  fst run = Suspended /\
  count is_connect (trace (snd run)) = 1%nat /\
  count is_agent_start (trace (snd run)) = 1%nat /\
  ota_context (snd run) = Extern 64 /\
  last (trace (snd run)) Call_IotSdk_Init = Call_vTaskSuspend NULL.
Proof. vm_compute. repeat split. Qed.

(** The messaging layer answers code 9: the agent is never started. *)
Example run_messaging_fails :
  let run := @ota_task demo_headers (demo_env 0 true 0 9 0) (@world0 demo_headers) in
  fst run = Halted /\
  trace (snd run) =
    [@wcm_init_event demo_headers;
     Call_cy_wcm_connect_ap (@wifi_conn_param demo_headers);
     Call_printf fmt_connected [ArgStr "ssid"];
     Call_IotSdk_Init; Call_IotNetworkSecureSockets_Init; Call_IotMqtt_Init;
     Call_printf msg_mqtt_failed []].
Proof. vm_compute. repeat split. Qed.

(** The agent, in state 5 ("downloading"), reports a reason that the table
    does not list, with value 42. *)
Example run_callback_downloading :
  let w := {| trace := [];
              connect_calls := 1;
              ota_context := Extern 64;
              ota_network_params := @ota_network_params_init demo_headers;
              agent := {| agent_state := fun _ => 5; last_error := 0 |} |} in
  ota_callback (demo_env 0 true 0 0 0) 77 42 Addr_ota_context w =
  (Ret tt,
   advance w
     [Call_cy_ota_get_state (Extern 64);
      Call_printf fmt_callback
        [ArgPtr (Extern 64); ArgInt 77; ArgStr "unknown"; ArgLong 42;
         ArgInt 5; ArgStr "downloading"; ArgStr "none"]] 0).
Proof. reflexivity. Qed.

(** With a bound of 0 the loop body never runs and [result] is returned
    without ever having been assigned. *)
Example run_zero_bound :
  fst (@connect_to_wifi_ap_with demo_headers failing_env 0 500
         (@world0 demo_headers)) = Undef.
Proof. reflexivity. Qed.

(** * Further properties of the code *)

(** ** connect_to_wifi_ap for arbitrary collaborators *)

Section ConnectShape.
Context `{Headers}.
Variable E : env.
Variables N D : Z.
Hypothesis N_range : 0 < N < UINT32_MOD.

(** The two ways a call of [connect_to_wifi_ap] can go. *)
Lemma connect_shape (w : world) :
  (exists k, (k < Z.to_nat N)%nat /\
             first_success_at E (connect_calls w) (connect_calls w + k) /\
             connect_to_wifi_ap_with E N D w =
             (Ret CY_RSLT_SUCCESS,
              advance w (wcm_init_event
                           :: failed_attempts E D (connect_calls w) k
                           ++ good_attempt) (S k)))
  \/
  (join_exhausted E (connect_calls w) (Z.to_nat N) /\
   exists r, r <> CY_RSLT_SUCCESS /\
             connect_to_wifi_ap_with E N D w =
             (Ret r,
              advance w (wcm_init_event
                           :: failed_attempts E D (connect_calls w) (Z.to_nat N)
                           ++ [Call_printf fmt_exceeded []]) (Z.to_nat N))).
Proof.
  destruct N_range as [Hpos Hmax].
  destruct (join_cases E (connect_calls w) (Z.to_nat N)) as [(k & Hk & Hs)|Hall].
  - left. exists k. split; [exact Hk|]. split; [exact Hs|].
    apply connect_first_success; [exact Hmax|lia|exact Hs].
  - right. split; [exact Hall|].
    pose proof (connect_all_fail E N D Hmax w ltac:(lia) Hall) as Hc.
    destruct (Z.to_nat N) as [|m] eqn:Hm; [lia|].
    cbn [last_result] in Hc. eexists. split; [|exact Hc].
    apply Hall. lia.
Qed.

Lemma total_delay_app (a b : list event) :
  total_delay (a ++ b) = total_delay a + total_delay b.
Proof.
  induction a as [|e a IH]; [reflexivity|]. destruct e; cbn; rewrite ?IH; lia.
Qed.

Lemma total_delay_failed_attempts (n : nat) :
  forall c, total_delay (failed_attempts E D c n) = pdMS_TO_TICKS D * Z.of_nat n.
Proof.
  induction n as [|n IH]; intros c; [cbn; lia|].
  rewrite failed_attempts_S, total_delay_app, IH. cbn [failed_attempt total_delay].
  lia.
Qed.

Lemma count_fatal_failed_attempts (n : nat) :
  forall c, count is_fatal_line (failed_attempts E D c n) = O.
Proof.
  induction n as [|n IH]; intros c; [reflexivity|].
  rewrite failed_attempts_S, count_app, IH. reflexivity.
Qed.

Lemma count_wcm_init_failed_attempts (n : nat) :
  forall c, count is_wcm_init (failed_attempts E D c n) = O.
Proof.
  induction n as [|n IH]; intros c; [reflexivity|].
  rewrite failed_attempts_S, count_app, IH. reflexivity.
Qed.

(** Where the retry line of attempt [j] stands among [k] failed passes. *)
Lemma retry_line_place (j : nat) :
  forall k c tail,
    (j < k)%nat ->
    nth_error (failed_attempts E D c k ++ tail) (3 * j + 1) =
    Some (Call_printf fmt_retrying
            [ArgInt (int_of_uint32 (connect_ap_result E (c + j))); ArgInt D]).
Proof.
  induction j as [|j IH]; intros k c tail Hk;
    (destruct k as [|k]; [lia|]); rewrite failed_attempts_S, <- app_assoc.
  - now rewrite Nat.add_0_r.
  - replace (3 * S j + 1)%nat with (S (S (S (3 * j + 1)))) by lia.
    cbn [failed_attempt app nth_error].
    rewrite IH by lia. now rewrite Nat.add_succ_comm.
Qed.

Lemma count_printf_failed_attempts (n : nat) :
  forall c, count is_printf (failed_attempts E D c n) = n.
Proof.
  induction n as [|n IH]; intros c; [reflexivity|].
  rewrite failed_attempts_S, count_app, IH. reflexivity.
Qed.

End ConnectShape.

(** X1. For every behaviour of the collaborators and every bound
    [0 < N < 2^32], [connect_to_wifi_ap] returns a result code (the loop
    ends, and [result] has been assigned); the code is the success code
    exactly when one of the first [N] answers of [cy_wcm_connect_ap] is a
    success; it calls [cy_wcm_init] once, makes at least one and at most [N]
    attempts, and writes none of the globals. *)
Theorem connect_returns_iff_joined `{Headers} (E : env) (N D : Z) (w : world) :
  0 < N < UINT32_MOD ->
  let run := connect_to_wifi_ap_with E N D w in
  let joined := events_of (connect_to_wifi_ap_with E N D) w in
  exists r,
    fst run = Ret r /\
    (r = CY_RSLT_SUCCESS <-> join_succeeds E (connect_calls w) (Z.to_nat N)) /\
    count is_wcm_init joined = 1%nat /\
    (1 <= count is_connect joined <= Z.to_nat N)%nat /\
    connect_calls (snd run) = (connect_calls w + count is_connect joined)%nat /\
    ota_context (snd run) = ota_context w /\
    ota_network_params (snd run) = ota_network_params w /\
    agent (snd run) = agent w.
Proof.
  intros HN run joined.
  destruct (connect_shape E N D HN w) as [(k & Hk & Hs & Hc)|(Hall & r & Hr & Hc)].
  - exists CY_RSLT_SUCCESS.
    assert (Hj := events_of_advance _ _ _ _ _ Hc). fold joined in Hj.
    subst run. rewrite Hc, Hj.
    change (wcm_init_event :: ?l) with ([wcm_init_event] ++ l).
    rewrite !count_app, count_connect_failed_attempts,
      count_wcm_init_failed_attempts.
    cbn. repeat split; try lia.
    intros _. now exists k.
  - exists r.
    assert (Hj := events_of_advance _ _ _ _ _ Hc). fold joined in Hj.
    subst run. rewrite Hc, Hj.
    change (wcm_init_event :: ?l) with ([wcm_init_event] ++ l).
    rewrite !count_app, count_connect_failed_attempts,
      count_wcm_init_failed_attempts.
    cbn. repeat split; try lia.
    intros Hjoin. destruct (join_succeeds_not_exhausted E _ _ Hjoin Hall).
Qed.

Lemma connect_returns_iff_joined_witness :
  exists r,
    fst (@connect_to_wifi_ap_with demo_headers (demo_env 2 true 0 0 0) 10 500
           (@world0 demo_headers)) = Ret r.
Proof.
  destruct (@connect_returns_iff_joined demo_headers (demo_env 2 true 0 0 0)
              10 500 (@world0 demo_headers)) as [r Hr].
  - split; reflexivity.
  - exists r. exact (proj1 Hr).
Defined.

(** X2. The time [connect_to_wifi_ap] asks to sleep: every delay is of
    [pdMS_TO_TICKS D] ticks; a call that returns success has slept once per
    attempt but the last (not at all when the first attempt succeeds), a
    call that fails has slept after each of its [N] attempts; so the ticks
    asked for never exceed [N * pdMS_TO_TICKS D]. *)
Theorem connect_delay_budget `{Headers} (E : env) (N D : Z) (w : world) :
  0 < N < UINT32_MOD ->
  0 <= pdMS_TO_TICKS D ->
  let run := connect_to_wifi_ap_with E N D w in
  let joined := events_of (connect_to_wifi_ap_with E N D) w in
  total_delay joined = pdMS_TO_TICKS D * Z.of_nat (count is_delay joined) /\
  (fst run = Ret CY_RSLT_SUCCESS ->
   S (count is_delay joined) = count is_connect joined) /\
  (fst run <> Ret CY_RSLT_SUCCESS ->
   count is_delay joined = Z.to_nat N /\ count is_connect joined = Z.to_nat N) /\
  total_delay joined <= N * pdMS_TO_TICKS D.
Proof.
  intros HN Hticks run joined.
  destruct (connect_shape E N D HN w) as [(k & Hk & Hs & Hc)|(Hall & r & Hr & Hc)];
    assert (Hj := events_of_advance _ _ _ _ _ Hc); fold joined in Hj;
    subst run; rewrite Hc, Hj;
    change (wcm_init_event :: ?l) with ([wcm_init_event] ++ l);
    rewrite !count_app, !total_delay_app, count_connect_failed_attempts,
      count_delay_failed_attempts, total_delay_failed_attempts;
    cbn [fst count filter is_delay is_connect wcm_init_event good_attempt
         List.length total_delay Nat.add].
  - repeat split; intros; try lia; try nia; congruence.
  - repeat split; intros; try lia; try nia; congruence.
Qed.

Lemma connect_delay_budget_witness :
  total_delay (events_of (@connect_to_wifi_ap_with demo_headers failing_env 3 500)
                         (@world0 demo_headers)) <= 3 * 500.
Proof.
  refine (proj2 (proj2 (proj2
    (@connect_delay_budget demo_headers failing_env 3 500
       (@world0 demo_headers) _ _)))).
  - split; reflexivity.
  - discriminate.
Defined.

(** ** What a run of ota_task calls, prints and writes *)

Section TaskWorld.
Context `{Headers}.
Variable E : env.
Variables N D : Z.

Ltac crunch_world :=
  cbn -[Z.eqb String.append LF]; rewrite ?Z.eqb_refl;
  cbn -[Z.eqb String.append LF].

(** The globals after a run whose join failed. *)
Lemma ota_task_world_join_failed (w : world) r evs n :
  connect_to_wifi_ap_with E N D w = (Ret r, advance w evs n) ->
  r <> CY_RSLT_SUCCESS ->
  let w' := snd (ota_task_with E N D w) in
  ota_context w' = ota_context w /\
  ota_network_params w' = ota_network_params w /\
  agent w' = agent w.
Proof.
  intros Hc Hr w'. subst w'. apply Z.eqb_neq in Hr.
  unfold ota_task_with. rewrite !(bind_run _ _ _ _ _ Hc), Hr.
  crunch_world. repeat split.
Qed.

(** The globals after a run whose join succeeded: they are written only
    when the three initialisations before the agent all answer success. *)
Lemma ota_task_world_after_join (w : world) evs n :
  connect_to_wifi_ap_with E N D w = (Ret CY_RSLT_SUCCESS, advance w evs n) ->
  let w' := snd (ota_task_with E N D w) in
  agent w' = agent w /\
  (IotSdk_Init_result E = true ->
   IotNetworkSecureSockets_Init_result E = IOT_NETWORK_SUCCESS ->
   IotMqtt_Init_result E = IOT_MQTT_SUCCESS ->
   ota_context w' = context_after_start E w /\
   ota_network_params w' = network_params_at_start w) /\
  (IotSdk_Init_result E = false \/
   IotNetworkSecureSockets_Init_result E <> IOT_NETWORK_SUCCESS \/
   IotMqtt_Init_result E <> IOT_MQTT_SUCCESS ->
   ota_context w' = ota_context w /\
   ota_network_params w' = ota_network_params w).
Proof.
  intros Hc w'. subst w'.
  unfold ota_task_with. rewrite !(bind_run _ _ _ _ _ Hc), Z.eqb_refl.
  unfold context_after_start, network_params_at_start.
  destruct (IotSdk_Init_result E) eqn:Hsdk.
  2:{ crunch_world. rewrite Hsdk. crunch_world.
      repeat split; intros; try discriminate; reflexivity. }
  destruct (Z.eqb_spec (IotNetworkSecureSockets_Init_result E) IOT_NETWORK_SUCCESS)
    as [Hso|Hso].
  2:{ apply Z.eqb_neq in Hso as Hso'. crunch_world. rewrite Hsdk. crunch_world.
      rewrite Hso'. crunch_world.
      repeat split; intros; try contradiction; reflexivity. }
  destruct (Z.eqb_spec (IotMqtt_Init_result E) IOT_MQTT_SUCCESS) as [Hmq|Hmq].
  2:{ apply Z.eqb_neq in Hmq as Hmq'. crunch_world. rewrite Hsdk. crunch_world.
      rewrite Hso. crunch_world. rewrite Hmq'. crunch_world.
      repeat split; intros; try contradiction; reflexivity. }
  crunch_world. rewrite Hsdk. crunch_world. rewrite Hso. crunch_world.
  rewrite Hmq. crunch_world.
  unfold cy_ota_agent_start, bind, get_world.
  cbn -[Z.eqb String.append LF].
  destruct (agent_start_result E _ ota_agent_params) as [a [c|]];
    crunch_world;
    destruct (Z.eqb_spec a CY_RSLT_SUCCESS) as [Ha|Ha]; crunch_world;
    (split; [reflexivity|]; split; [intros; split; reflexivity|]);
    intros [Hf|[Hf|Hf]]; congruence.
Qed.

Hypothesis N_range : 0 < N < UINT32_MOD.

(** What the join leaves in the trace, counted. *)
Lemma joined_counts (w : world) :
  let joined := events_of (connect_to_wifi_ap_with E N D) w in
  count is_wcm_init joined = 1%nat /\
  (1 <= count is_connect joined <= Z.to_nat N)%nat /\
  (count is_delay joined <= Z.to_nat N)%nat /\
  count is_fatal_line joined = 0%nat.
Proof.
  intros joined.
  destruct (connect_shape E N D N_range w) as [(k & Hk & Hs & Hc)|(Hall & r & Hr & Hc)];
    assert (Hj := events_of_advance _ _ _ _ _ Hc); fold joined in Hj;
    rewrite Hj;
    change (wcm_init_event :: ?l) with ([wcm_init_event] ++ l);
    rewrite !count_app, count_connect_failed_attempts,
      count_delay_failed_attempts, count_wcm_init_failed_attempts,
      count_fatal_failed_attempts;
    cbn; lia.
Qed.

End TaskWorld.

Ltac stage_counts Hjoin :=
  rewrite ?(count_after_join is_sdk_init _ _ ltac:(stage_pred) Hjoin),
          ?(count_after_join is_sockets_init _ _ ltac:(stage_pred) Hjoin),
          ?(count_after_join is_mqtt_init _ _ ltac:(stage_pred) Hjoin),
          ?(count_after_join is_agent_start _ _ ltac:(stage_pred) Hjoin),
          ?(count_after_join is_suspend _ _ ltac:(stage_pred) Hjoin).

(** X3. In every run of [ota_task], whatever the collaborators answer:
    [cy_wcm_init] is called once, [cy_wcm_connect_ap] between one and ten
    times, [vTaskDelay] at most ten times, and each of [IotSdk_Init],
    [IotNetworkSecureSockets_Init], [IotMqtt_Init], [cy_ota_agent_start] and
    [vTaskSuspend] at most once: only the join is ever retried. *)
Theorem only_the_join_is_retried `{Headers} (E : env) (w : world) :
  let tr := events_of (ota_task E) w in
  count is_wcm_init tr = 1%nat /\
  (1 <= count is_connect tr <= 10)%nat /\
  (count is_delay tr <= 10)%nat /\
  (count is_sdk_init tr <= 1)%nat /\
  (count is_sockets_init tr <= 1)%nat /\
  (count is_mqtt_init tr <= 1)%nat /\
  (count is_agent_start tr <= 1)%nat /\
  (count is_suspend tr <= 1)%nat.
Proof.
  intros tr.
  destruct (ota_task_shape E _ WIFI_CONN_RETRY_DELAY_MS
              MAX_CONNECTION_RETRIES_range w) as [Hjoin Hshape].
  destruct (joined_counts E _ WIFI_CONN_RETRY_DELAY_MS
              MAX_CONNECTION_RETRIES_range w) as (Hi & Hc & Hd & _).
  change (Z.to_nat MAX_CONNECTION_RETRIES) with 10%nat in Hc, Hd.
  fold (connect_to_wifi_ap E) in Hjoin, Hshape, Hi, Hc, Hd.
  fold (ota_task E) in Hshape. fold tr in Hshape.
  destruct Hshape as [(r & _ & _ & _ & _ & Htr)|(_ & _ & Hrest)].
  2: destruct Hrest as [(_ & _ & Htr)
                       |[(_ & _ & _ & Htr)
                        |[(_ & _ & _ & _ & Htr)
                         |[(_ & _ & _ & _ & _ & Htr)
                          |(_ & _ & _ & _ & _ & Htr)]]]].
  all: rewrite Htr; stage_counts Hjoin; rewrite !count_app, Hi;
    cbn [count filter List.length agent_start_event is_wcm_init is_connect
         is_delay is_sdk_init is_sockets_init is_mqtt_init is_agent_start
         is_suspend];
    repeat split; lia.
Qed.

(** X4. In every run of [ota_task], one of its five failure lines is printed
    exactly when the run halts: a halted run has printed exactly one of
    them, as its last call, and a suspended run none; the lines that the
    join prints are never among them, and a suspended run prints nothing
    but what the join printed. *)
Theorem failure_line_iff_halted `{Headers} (E : env) (w : world) :
  let out := fst (ota_task E w) in
  let tr := events_of (ota_task E) w in
  let joined := events_of (connect_to_wifi_ap E) w in
  count is_fatal_line joined = 0%nat /\
  (out = Halted ->
   count is_fatal_line tr = 1%nat /\
   exists pre c, tr = pre ++ [Call_printf (diagnostic c) []]) /\
  (out = Suspended ->
   count is_fatal_line tr = 0%nat /\
   filter is_printf tr = filter is_printf joined).
Proof.
  intros out tr joined.
  destruct (ota_task_shape E _ WIFI_CONN_RETRY_DELAY_MS
              MAX_CONNECTION_RETRIES_range w) as [Hjoin Hshape].
  destruct (joined_counts E _ WIFI_CONN_RETRY_DELAY_MS
              MAX_CONNECTION_RETRIES_range w) as (_ & _ & _ & Hq).
  fold (connect_to_wifi_ap E) in Hjoin, Hshape, Hq.
  fold (ota_task E) in Hshape. fold out tr joined in Hjoin, Hshape, Hq.
  split; [exact Hq|].
  destruct Hshape as [(r & _ & _ & _ & Hout & Htr)|(_ & _ & Hrest)].
  2: destruct Hrest as [(_ & Hout & Htr)
                       |[(_ & _ & Hout & Htr)
                        |[(_ & _ & _ & Hout & Htr)
                         |[(_ & _ & _ & _ & Hout & Htr)
                          |(_ & _ & _ & _ & Hout & Htr)]]]].
  all: rewrite Hout, Htr, count_app, Hq, filter_app;
    (split; [intros Ho|intros Ho]; try discriminate Ho).
  - split; [reflexivity|]. now exists joined, JoinExhausted.
  - split; [reflexivity|].
    now exists (joined ++ [Call_IotSdk_Init]), RuntimeSupportFailed;
      rewrite <- app_assoc.
  - split; [reflexivity|].
    now exists (joined ++ [Call_IotSdk_Init; Call_IotNetworkSecureSockets_Init]),
      SecureTransportFailed; rewrite <- app_assoc.
  - split; [reflexivity|].
    now exists (joined ++ [Call_IotSdk_Init; Call_IotNetworkSecureSockets_Init;
                           Call_IotMqtt_Init]),
      MessagingFailed; rewrite <- app_assoc.
  - split; [reflexivity|].
    now exists (joined ++ [Call_IotSdk_Init; Call_IotNetworkSecureSockets_Init;
                           Call_IotMqtt_Init; agent_start_event w]),
      AgentActivationFailed; rewrite <- app_assoc.
  - split; [reflexivity|]. cbn. now rewrite app_nil_r.
Qed.

(** X5. The globals after a run of [ota_task]: the agent's own state is
    never touched; [ota_context] and [ota_network_params] are written only
    in a run that reaches [cy_ota_agent_start], which then has filled in the
    network interface (and nothing else) and left in [ota_context] what the
    library stored; a run that stops before that call leaves both as they
    were. *)
Theorem globals_written_at_agent_start `{Headers} (E : env) (w : world) :
  let w' := snd (ota_task E w) in
  let tr := events_of (ota_task E) w in
  agent w' = agent w /\
  (occurs is_agent_start tr = false ->
   ota_context w' = ota_context w /\
   ota_network_params w' = ota_network_params w) /\
  (occurs is_agent_start tr = true ->
   ota_context w' = context_after_start E w /\
   ota_network_params w' = network_params_at_start w /\
   network_interface (ota_network_params w') =
     IOT_NETWORK_INTERFACE_CY_SECURE_SOCKETS /\
   server (ota_network_params w') = server (ota_network_params w) /\
   transport (ota_network_params w') = transport (ota_network_params w) /\
   u_mqtt (ota_network_params w') = u_mqtt (ota_network_params w) /\
   np_credentials (ota_network_params w') = np_credentials (ota_network_params w)).
Proof.
  intros w' tr.
  destruct (ota_task_shape E _ WIFI_CONN_RETRY_DELAY_MS
              MAX_CONNECTION_RETRIES_range w) as [Hjoin Hshape].
  destruct (connect_shape E _ WIFI_CONN_RETRY_DELAY_MS
              MAX_CONNECTION_RETRIES_range w)
    as [(k & Hk & Hs & Hc)|(Hall & r & Hr & Hc)].
  - destruct (ota_task_world_after_join E _ _ w _ _ Hc) as (Hag & Hyes & Hno).
    fold (connect_to_wifi_ap E) in Hjoin, Hshape.
    fold (ota_task E) in Hshape, Hag, Hyes, Hno. fold tr in Hshape.
    fold w' in Hag, Hyes, Hno.
    split; [exact Hag|].
    destruct Hshape as [(r & _ & _ & Hex & _)|(_ & _ & Hrest)].
    { exfalso. apply (join_succeeds_not_exhausted E _ _
                        (ex_intro _ k (conj Hk Hs)) Hex). }
    destruct Hrest as [(Hsdk & _ & Htr)
                      |[(Hsdk & Hso & _ & Htr)
                       |[(Hsdk & Hso & Hmq & _ & Htr)
                        |[(Hsdk & Hso & Hmq & _ & _ & Htr)
                         |(Hsdk & Hso & Hmq & _ & _ & Htr)]]]];
      rewrite Htr; eval_occurs Hjoin;
      (split; intros Ho; try discriminate Ho).
    + apply Hno. now left.
    + apply Hno. right. now left.
    + apply Hno. right. now right.
    + destruct (Hyes Hsdk Hso Hmq) as [-> ->]. repeat split.
    + destruct (Hyes Hsdk Hso Hmq) as [-> ->]. repeat split.
  - destruct (ota_task_world_join_failed E _ _ w _ _ _ Hc Hr) as (Hctx & Hnp & Hag).
    fold (connect_to_wifi_ap E) in Hjoin, Hshape.
    fold (ota_task E) in Hshape, Hctx, Hnp, Hag. fold tr in Hshape.
    fold w' in Hctx, Hnp, Hag.
    split; [exact Hag|].
    destruct Hshape as [(r' & _ & _ & _ & _ & Htr)|(_ & Hjs & _)].
    2:{ destruct (join_succeeds_not_exhausted E _ _ Hjs Hall). }
    rewrite Htr. eval_occurs Hjoin.
    split; intros Ho; [now split|discriminate Ho].
Qed.

(** ** ota_task and ota_callback together *)

(** X6. After a bring-up that ended suspended, a notification delivered
    through the registered function pointer and context reports on the
    agent that was just started: the callback hands [cy_ota_get_state] the
    context that [cy_ota_agent_start] left in [ota_context], and prints that
    same handle in its record. *)
Theorem callback_after_bring_up `{Headers} (E : env)
        (reason : cy_ota_cb_reason_t) (value : uint32_t) (w : world) :
  fst (ota_task E w) = Suspended ->
  let w1 := snd (ota_task E w) in
  let ctx := context_after_start E w in
  let ota_state := agent_state (agent w1) ctx in
  let sink := call_cb_func E (cb_func ota_agent_params) reason value
                           (cb_arg ota_agent_params) in
  ota_context w1 = ctx /\
  fst (sink w1) = Ret tt /\
  events_of sink w1 =
    [Call_cy_ota_get_state ctx;
     Call_printf fmt_callback
       [ArgPtr ctx;
        ArgInt reason;
        ArgStr (cy_ota_get_callback_reason_string E reason);
        ArgLong value;
        ArgInt ota_state;
        ArgStr (cy_ota_get_state_string E ota_state);
        ArgStr (cy_ota_get_error_string E (last_error (agent w1)))]].
Proof.
  intros Hsusp w1 ctx ota_state sink.
  assert (Hctx : ota_context w1 = ctx).
  { destruct (ota_task_shape E _ WIFI_CONN_RETRY_DELAY_MS
                MAX_CONNECTION_RETRIES_range w) as [_ Hshape].
    destruct (connect_shape E _ WIFI_CONN_RETRY_DELAY_MS
                MAX_CONNECTION_RETRIES_range w)
      as [(k & Hk & Hs & Hc)|(Hall & r & Hr & Hc)].
    - destruct (ota_task_world_after_join E _ _ w _ _ Hc) as (_ & Hyes & _).
      fold (ota_task E) in Hshape, Hyes. fold w1 in Hyes.
      destruct Hshape as [(r & _ & _ & _ & Hout & _)|(_ & _ & Hrest)];
        [congruence|].
      destruct Hrest as [(_ & Hout & _)
                        |[(_ & _ & Hout & _)
                         |[(_ & _ & _ & Hout & _)
                          |[(_ & _ & _ & _ & Hout & _)
                           |(Hsdk & Hso & Hmq & _)]]]];
        try congruence.
      exact (proj1 (Hyes Hsdk Hso Hmq)).
    - destruct (ota_task_join_failed E _ _ w _ _ _ Hc Hr) as [Hout _].
      fold (ota_task E) in Hout. congruence. }
  split; [exact Hctx|].
  assert (Hrun := run_ota_callback E reason value w1).
  change (ota_callback E reason value Addr_ota_context) with sink in Hrun.
  assert (Hev := events_of_advance _ _ _ _ _ Hrun).
  rewrite Hev, Hrun, Hctx. split; reflexivity.
Qed.

Lemma callback_after_bring_up_witness :
  ota_context (snd (@ota_task demo_headers (demo_env 0 true 0 0 0)
                      (@world0 demo_headers))) = Extern 64.
Proof.
  refine (proj1 (@callback_after_bring_up demo_headers (demo_env 0 true 0 0 0)
                   0 42 (@world0 demo_headers) _)).
  reflexivity.
Defined.

(** X7. The result code of [cy_ota_get_state] is never looked at: whatever
    codes the library answers with, and whatever the arguments, the callback
    runs the same way and prints the same record. *)
Theorem get_state_result_unchecked (E : env)
        (f : cy_ota_context_ptr -> cy_rslt_t)
        (reason : cy_ota_cb_reason_t) (value : uint32_t) (cb_arg : void_ptr)
        (w : world) :
  ota_callback (with_get_state_result E f) reason value cb_arg w =
  ota_callback E reason value cb_arg w.
Proof.
  destruct cb_arg; reflexivity.
Qed.

(** X8. The error code in the retry lines that [connect_to_wifi_ap]
    prints is the result code cast to [int].  When the attempts up to
    number [j] (counted from 0) all fail, the retry line of attempt [j] sits
    at place [3 * j + 2] of the calls made and carries the 32-bit code of
    that attempt read as a signed number: the code itself below 2^31, the
    code minus 2^32 from 2^31 on, so codes with the top bit set are printed
    as negative numbers. *)
Theorem printed_error_code `{Headers} (E : env) (N D : Z) (w : world) (j : nat) :
  0 < N < UINT32_MOD ->
  Z.of_nat j < N ->
  (forall i, (i <= j)%nat ->
             connect_ap_result E (connect_calls w + i) <> CY_RSLT_SUCCESS) ->
  let r := connect_ap_result E (connect_calls w + j) in
  0 <= r < UINT32_MOD ->
  exists shown,
    nth_error (events_of (connect_to_wifi_ap_with E N D) w) (3 * j + 2) =
      Some (Call_printf fmt_retrying [ArgInt shown; ArgInt D]) /\
    - 2 ^ 31 <= shown < 2 ^ 31 /\
    (r < 2 ^ 31 -> shown = r) /\
    (2 ^ 31 <= r -> shown = r - UINT32_MOD /\ shown < 0).
Proof.
  intros HN Hj Hfail r Hr. exists (int_of_uint32 r). split.
  - assert (Hnth : forall k tail, (j < k)%nat ->
               nth_error (wcm_init_event
                            :: failed_attempts E D (connect_calls w) k ++ tail)
                         (3 * j + 2) =
               Some (Call_printf fmt_retrying [ArgInt (int_of_uint32 r); ArgInt D])).
    { intros k tail Hk. replace (3 * j + 2)%nat with (S (3 * j + 1)) by lia.
      cbn [nth_error]. now apply retry_line_place. }
    destruct (connect_shape E N D HN w) as [(k & Hk & Hs & Hc)|(Hall & r' & Hr' & Hc)];
      rewrite (events_of_advance _ _ _ _ _ Hc); apply Hnth.
    + destruct (Nat.lt_ge_cases j k) as [Hlt|Hge]; [exact Hlt|].
      destruct Hs as [_ Hok]. destruct (Hfail k Hge Hok).
    + lia.
  - unfold int_of_uint32, UINT32_MOD in *.
    destruct (Z_lt_le_dec r (2 ^ 31)) as [Hlo|Hhi].
    + rewrite Z.mod_small by lia. repeat split; lia.
    + replace (r + 2 ^ 31) with (r - 2 ^ 31 + 1 * 2 ^ 32) by lia.
      rewrite Z.mod_add by lia. rewrite Z.mod_small by lia.
      repeat split; lia.
Qed.

Lemma printed_error_code_witness :
  exists shown,
    nth_error (events_of (@connect_to_wifi_ap_with demo_headers rejecting_env 3 500)
                         (@world0 demo_headers)) 5 =
      Some (Call_printf fmt_retrying [ArgInt shown; ArgInt 500]) /\
    shown = -1.
Proof.
  destruct (@printed_error_code demo_headers rejecting_env 3 500
              (@world0 demo_headers) 1%nat)
    as (shown & Hnth & _ & _ & Hhigh).
  - split; reflexivity.
  - reflexivity.
  - intros i _. cbn. discriminate.
  - split; [discriminate|reflexivity].
  - exists shown. split; [exact Hnth|].
    exact (proj1 (Hhigh ltac:(discriminate))).
Defined.

(** X9. With a bound of 0 the loop body never runs: whatever the
    collaborators would answer, [connect_to_wifi_ap] makes no attempt and no
    delay, prints that the attempts are used up and returns [result]
    without ever having assigned it, which is undefined behaviour; the task
    built on it inherits that. *)
Theorem zero_bound_returns_unassigned `{Headers} (E : env) (D : Z) (w : world) :
  fst (connect_to_wifi_ap_with E 0 D w) = Undef /\
  events_of (connect_to_wifi_ap_with E 0 D) w =
    [wcm_init_event; Call_printf fmt_exceeded []] /\
  fst (ota_task_with E 0 D w) = Undef.
Proof.
  assert (Hc : connect_to_wifi_ap_with E 0 D w =
               (Undef, advance w [wcm_init_event; Call_printf fmt_exceeded []] 0)).
  { unfold connect_to_wifi_ap_with, cy_wcm_init, bind.
    rewrite run_emit. cbn beta iota. unfold ret at 1. cbn beta iota.
    change (Z.to_nat 0) with O. rewrite connect_loop_exit by lia.
    now rewrite advance_advance. }
  split; [now rewrite Hc|]. split; [exact (events_of_advance _ _ _ _ _ Hc)|].
  unfold ota_task_with, bind at 1. now rewrite Hc.
Qed.

(** ** The lines printed before a halt *)

(** C4, against the claim as written.  With a join that never succeeds the
    compiled-in task halts after twelve lines, not one: ten retry lines,
    and then two lines that report the exhaustion, "Exceeded maximum Wi-Fi
    connection attempts" from [connect_to_wifi_ap] and "Failed to connect to
    Wi-FI AP." from [ota_task]. *)
Lemma join_exhaustion_prints_two_lines :
  let run := @ota_task demo_headers failing_env (@world0 demo_headers) in
  fst (@connect_to_wifi_ap demo_headers failing_env (@world0 demo_headers)) = Ret 7 /\
  7 <> @CY_RSLT_SUCCESS demo_headers /\
  fst run = Halted /\
  count is_printf (trace (snd run)) = 12%nat /\
  count is_printf (trace (snd run)) <> 1%nat /\
  skipn 10 (filter is_printf (trace (snd run))) =
    [Call_printf fmt_exceeded []; Call_printf msg_wifi_failed []].
Proof.
  vm_compute. repeat split; discriminate.
Qed.

(** C4, as amended.  When one of the four later stages answers a failure
    after a successful join, [ota_task] prints exactly one line, the
    diagnostic of that stage, right after the failing call, and halts on
    the assertion; it is the only failure line of the run.  When the join
    uses up its attempts, [connect_to_wifi_ap] has printed one retry line
    per attempt and the line that the attempts are used up, and [ota_task]
    then prints one more line, its own diagnostic, and halts.  A run never
    returns to a caller: it ends halted or suspended, and it ends halted
    only through one of these five conditions. *)
Theorem fatal_condition_diagnostics `{Headers} (E : env) (w : world) :
  let out := fst (ota_task E w) in
  let tr := events_of (ota_task E) w in
  let joined := events_of (connect_to_wifi_ap E) w in
  (forall c, c <> JoinExhausted -> arises E w c ->
             out = Halted /\
             tr = joined ++ stage_calls w c ++ [Call_printf (diagnostic c) []] /\
             count is_printf (stage_calls w c ++ [Call_printf (diagnostic c) []])
               = 1%nat /\
             count is_fatal_line tr = 1%nat) /\
  (arises E w JoinExhausted ->
   out = Halted /\
   tr = wcm_init_event
          :: failed_attempts E WIFI_CONN_RETRY_DELAY_MS (connect_calls w) 10
          ++ [Call_printf fmt_exceeded []; Call_printf msg_wifi_failed []] /\
   count is_printf tr = 12%nat /\
   count is_fatal_line tr = 1%nat) /\
  (forall u, out <> Ret u) /\
  (out = Halted \/ out = Suspended) /\
  (out = Halted -> exists c, arises E w c).
Proof.
  intros out tr joined.
  destruct (ota_task_shape E _ WIFI_CONN_RETRY_DELAY_MS
              MAX_CONNECTION_RETRIES_range w) as [Hjoin Hshape].
  destruct (joined_counts E _ WIFI_CONN_RETRY_DELAY_MS
              MAX_CONNECTION_RETRIES_range w) as (_ & _ & _ & Hq).
  fold (connect_to_wifi_ap E) in Hjoin, Hshape, Hq.
  fold (ota_task E) in Hshape. fold out tr joined in Hjoin, Hshape, Hq.
  assert (Hline : forall c,
             tr = joined ++ stage_calls w c ++ [Call_printf (diagnostic c) []] ->
             count is_printf (stage_calls w c ++ [Call_printf (diagnostic c) []])
               = 1%nat /\
             count is_fatal_line tr = 1%nat).
  { intros c ->. rewrite !count_app, Hq. destruct c; split; reflexivity. }
  destruct Hshape as [(r & Hr & Hne & Hex & Hout & Htr)|(Hr & Hjs & Hrest)].
  - split; [|split; [|rewrite Hout; repeat split; try discriminate; auto]].
    + intros c Hc Ha. destruct c; [contradiction|..]; cbn [arises] in Ha;
        rewrite Hr in Ha; destruct Ha; congruence.
    + intros _. split; [exact Hout|].
      destruct (connect_shape E _ WIFI_CONN_RETRY_DELAY_MS
                  MAX_CONNECTION_RETRIES_range w)
        as [(k & Hk & Hs & Hc)|(_ & r' & _ & Hc)].
      { destruct (join_succeeds_not_exhausted E _ _
                    (ex_intro _ k (conj Hk Hs)) Hex). }
      apply events_of_advance in Hc. fold (connect_to_wifi_ap E) in Hc.
      fold joined in Hc.
      change (Z.to_nat MAX_CONNECTION_RETRIES) with 10%nat in Hc.
      assert (Htr' : tr = wcm_init_event
                :: failed_attempts E WIFI_CONN_RETRY_DELAY_MS (connect_calls w) 10
                ++ [Call_printf fmt_exceeded []; Call_printf msg_wifi_failed []]).
      { rewrite Htr, Hc. cbn [app]. now rewrite <- app_assoc. }
      split; [exact Htr'|]. split.
      * rewrite Htr'. change (wcm_init_event :: ?l) with ([wcm_init_event] ++ l).
        rewrite !count_app, count_printf_failed_attempts. reflexivity.
      * rewrite Htr, count_app, Hq. reflexivity.
    + intros _. exists JoinExhausted. now exists r.
  - assert (Hnot : arises E w JoinExhausted -> False).
    { intros (r & Hr' & Hne). rewrite Hr in Hr'. congruence. }
    destruct Hrest as [(Hsdk & Hout & Htr)
                      |[(Hsdk & Hso & Hout & Htr)
                       |[(Hsdk & Hso & Hmq & Hout & Htr)
                        |[(Hsdk & Hso & Hmq & Ha & Hout & Htr)
                         |(Hsdk & Hso & Hmq & Ha & Hout & Htr)]]]].
    all: split;
      [ intros c Hc Hc'; destruct c; [contradiction|..]; cbn [arises] in Hc';
        try (exfalso; intuition congruence)
      | split; [intros Hj; destruct (Hnot Hj)
               |rewrite Hout; repeat split; try discriminate; auto] ].
    + split; [exact Hout|]. split; [exact Htr|]. now apply (Hline RuntimeSupportFailed).
    + intros _. exists RuntimeSupportFailed. now split.
    + split; [exact Hout|]. split; [exact Htr|]. now apply (Hline SecureTransportFailed).
    + intros _. exists SecureTransportFailed. cbn. auto.
    + split; [exact Hout|]. split; [exact Htr|]. now apply (Hline MessagingFailed).
    + intros _. exists MessagingFailed. cbn. auto.
    + split; [exact Hout|]. split; [exact Htr|]. now apply (Hline AgentActivationFailed).
    + intros _. exists AgentActivationFailed. cbn. auto.
Qed.
